(** * CodeCoach: the GitHub review reporter

    A shallow embedding of [src/Provider/GitHub/GitHub.ts] and of the
    helpers it imports, followed by the properties of the reporter.

    Conventions of the embedding:
    - a TypeScript [number] that holds an id, a line or a count is a [Z];
    - a [string] is a [String.string];
    - an optional field ([user?]) is an [option];
    - a value thrown or used to reject a promise is an [Error];
    - the platform adapter ([IGitHubPRService]) is a record of methods
      over an abstract world [W]: a method reads and updates the world
      and hands back a promise, which carries the instant at which it
      settles and its outcome; a method never throws synchronously;
    - an [async] method of the class is a function from states to a
      result and a state; the state holds the world, the fields of the
      instance, the trace of the adapter calls issued and the log;
    - [Promise.all] over a batch issues every call of the batch, in
      order, before it waits; it rejects with the rejection that settles
      first. *)

From Stdlib Require Import ZArith String Bool Lia PeanoNat List Sorted.
Import ListNotations.
Local Open Scope string_scope.
Local Open Scope Z_scope.
Local Open Scope list_scope.

Set Implicit Arguments.

(* ===================================================================== *)
(** * Data model                                                          *)
(* ===================================================================== *)

(** Modelled from the spec: the [LogSeverity] enumeration of [Parser] is
    not among the sources.  The spec names the severities [error] and
    [warning] and speaks of findings whose severity is outside these two;
    every other label is an [other]. *)
Inductive LogSeverity : Type :=
| error
| warning
| other (label : string).

Definition LogSeverity_eqb (a b : LogSeverity) : bool :=
  match a, b with
  | error, error => true
  | warning, warning => true
  | other x, other y => String.eqb x y
  | _, _ => false
  end.

(** Modelled from the spec: the [LogType] record of [Parser] is not among
    the sources.  A finding has a source file path, a line number, a
    severity and a message text ([source] and [line] are the field names
    the tests of the repository read). *)
Record LogType : Type := mkLog {
  source : string;
  line : Z;
  severity : LogSeverity;
  msg : string
}.

(** Modelled from the spec: the [Diff] record of [@types/PatchTypes] is
    not among the sources.  A diff entry is one changed file, identified
    by its path, with the set of line numbers changed within it. *)
Record Diff : Type := mkDiff {
  diff_file : string;
  changedLines : list Z
}.

(** The [Comment] record of [@types/CommentTypes]: the five fields that
    [GitHub.ts] reads ([text], [file], [line] in [createReviewComment],
    [errors] and [warnings] in [setup]).  The field [line] is [cline]
    here, [line] being the line of a finding. *)
Record Comment : Type := mkComment {
  text : string;
  file : string;
  cline : Z;
  errors : Z;
  warnings : Z
}.

(** [CommitStatus] of [./CommitStatus]: the two members the reporter uses. *)
Inductive CommitStatus : Type :=
| success
| failure.

(** The author of an existing comment, and the two kinds of existing
    comments the adapter lists.  [user] is optional on both.  A top-level
    comment also carries the optional system flag that the spec lists for
    it; the reporter never reads it. *)
Record User : Type := mkUser { user_id : Z }.

Record IssueComment : Type := mkIssueComment {
  comment_id : Z;
  comment_user : option User;
  comment_system : option bool
}.

Record ReviewComment : Type := mkReviewComment {
  review_id : Z;
  review_user : option User
}.

(** A thrown value. *)
Definition Error : Type := string.

(* ===================================================================== *)
(** * Helpers imported by the reporter                                    *)
(* ===================================================================== *)

Module FilterUtil.

(** Modelled from the spec: [onlySeverity] of [utils/filter.util] is not
    among the sources.  [onlySeverity(s1, ..., sn)] is the predicate that
    holds of a finding whose severity is one of [s1 .. sn]. *)
Definition onlySeverity (allowed : list LogSeverity) (log : LogType) : bool :=
  existsb (LogSeverity_eqb (severity log)) allowed.

(** Modelled from the spec: [onlyIn] of [utils/filter.util] is not among
    the sources.  [onlyIn(diffs)] holds of a finding whose (file, line)
    appears inside the changed-line set of some entry of [diffs]. *)
Definition inDiff (log : LogType) (d : Diff) : bool :=
  String.eqb (diff_file d) (source log) && existsb (Z.eqb (line log)) (changedLines d).

Definition onlyIn (diffs : list Diff) (log : LogType) : bool :=
  existsb (inDiff log) diffs.

End FilterUtil.

(** Modelled from the spec: [MessageUtil] of [utils/message.util] is not
    among the sources, and the spec fixes no wording.  Its functions are
    parameters of the development: the overview message of the summary
    comment, the description of the commit status, and the text of one
    grouped comment, composed from the findings of the group in
    first-seen order. *)
Record MessageUtilT : Type := mkMessageUtil {
  generateOverviewMessage : Z -> Z -> string;
  generateCommitDescription : Z -> string;
  generateGroupText : list LogType -> string
}.

Module CommentUtil.

Definition isError (log : LogType) : bool := LogSeverity_eqb (severity log) error.
Definition isWarning (log : LogType) : bool := LogSeverity_eqb (severity log) warning.

(** The findings of one location, in first-seen order. *)
Record Group : Type := mkGroup {
  g_file : string;
  g_line : Z;
  g_logs : list LogType
}.

Definition atGroup (log : LogType) (g : Group) : bool :=
  String.eqb (g_file g) (source log) && Z.eqb (g_line g) (line log).

(** Adds a finding to the group of its location, or opens a new group
    after the existing ones. *)
Fixpoint addToGroups (log : LogType) (gs : list Group) : list Group :=
  match gs with
  | [] => [mkGroup (source log) (line log) [log]]
  | g :: rest =>
      if atGroup log g
      then mkGroup (g_file g) (g_line g) (g_logs g ++ [log]) :: rest
      else g :: addToGroups log rest
  end.

Definition groupLogs (logs : list LogType) : list Group :=
  fold_left (fun gs log => addToGroups log gs) logs [].

Definition countZ (p : LogType -> bool) (logs : list LogType) : Z :=
  Z.of_nat (length (filter p logs)).

Definition toComment (MessageUtil : MessageUtilT) (g : Group) : Comment :=
  {| text := generateGroupText MessageUtil (g_logs g);
     file := g_file g;
     cline := g_line g;
     errors := countZ isError (g_logs g);
     warnings := countZ isWarning (g_logs g) |}.

(** Modelled from the spec: [groupComments] of [utils/commentUtil] is not
    among the sources.  Findings are grouped by exact (file, line)
    equality; the first occurrence of a location fixes the position of
    its group; the error count of a group is the number of its findings
    of severity [error], the warning count the number of severity
    [warning]; the text is composed from the findings of the group in
    first-seen order. *)
Definition groupComments (MessageUtil : MessageUtilT) (logs : list LogType) : list Comment :=
  map (toComment MessageUtil) (groupLogs logs).

End CommentUtil.

(* ===================================================================== *)
(** * Effects: adapter calls, the log, promises                           *)
(* ===================================================================== *)

(** One call of an adapter method, with its arguments. *)
Inductive Call : Type :=
| GetLatestCommitSha
| GetDiff
| CreateComment (body : string)
| CreateReviewComment (sha : string) (body : string) (path : string) (at_line : Z)
| SetCommitStatus (sha : string) (state : CommitStatus) (description : string)
| GetCurrentUserId
| ListAllComments
| ListAllReviewComments
| DeleteComment (id : Z)
| DeleteReviewComment (id : Z).

(** What a fulfilled adapter call answers. *)
Inductive Response : Type :=
| RSha (sha : string)
| RDiff (diffs : list Diff)
| RDone
| RUserId (id : Z)
| RComments (comments : list IssueComment)
| RReviews (reviews : list ReviewComment).

(** The record of one issued call: the call and how its promise settled. *)
Record Event : Type := mkEvent {
  ev_call : Call;
  ev_result : Error + Response
}.

(** A line written through [Log].  The structured payload of a debug line
    is not kept. *)
Inductive LogEntry : Type :=
| LogInfo (message : string)
| LogDebug (message : string)
| LogError (message : string) (err : Error).

(** A promise, seen from the run that awaits it: the instant at which it
    settles, how it settles, and the log lines that the continuations
    chained on it write at that instant. *)
Record Promise (A : Type) : Type := mkPromise {
  settledAt : nat;
  outcome : Error + A;
  onSettled : list LogEntry
}.

Definition rejection {A : Type} (r : Error + A) : option Error :=
  match r with
  | inl e => Some e
  | inr _ => None
  end.

Definition settlement {A : Type} (p : Promise A) : nat * option Error :=
  (settledAt p, rejection (outcome p)).

(** The rejection that settles first among a batch of promises, with its
    instant; of two rejections at the same instant, the one issued first. *)
Fixpoint firstRejection (batch : list (nat * option Error)) : option (nat * Error) :=
  match batch with
  | [] => None
  | (t, r) :: rest =>
      match r, firstRejection rest with
      | None, later => later
      | Some e, None => Some (t, e)
      | Some e, Some (t', e') => if (t' <? t)%nat then Some (t', e') else Some (t, e)
      end
  end.

Fixpoint fulfilledValues {A : Type} (ps : list (Promise A)) : list A :=
  match ps with
  | [] => []
  | p :: rest =>
      match outcome p with
      | inr a => a :: fulfilledValues rest
      | inl _ => fulfilledValues rest
      end
  end.

Definition writtenBefore {A : Type} (t : nat) (ps : list (Promise A)) : list LogEntry :=
  flat_map (fun p => if (settledAt p <? t)%nat then onSettled p else []) ps.

(** [p.then(v => { Log...; return f(v) })]: the continuation of an async
    function after its [await]. *)
Definition andThen {A B : Type} (p : Promise A) (lines : list LogEntry) (f : A -> B) : Promise B :=
  match outcome p with
  | inl e => mkPromise (settledAt p) (inl e) (onSettled p)
  | inr a => mkPromise (settledAt p) (inr (f a)) (onSettled p ++ lines)
  end.

(** The platform adapter.  Every method returns a promise: the instant at
    which it settles and its outcome, decided by the world at the time of
    the call. *)
Module IGitHubPRService.

Definition Reply (A : Type) : Type := nat * (Error + A).

Record t (W : Type) : Type := mk {
  getLatestCommitSha : W -> Reply string * W;
  diff : W -> Reply (list Diff) * W;
  createComment : string -> W -> Reply unit * W;
  createReviewComment : string -> string -> string -> Z -> W -> Reply unit * W;
  setCommitStatus : string -> CommitStatus -> string -> W -> Reply unit * W;
  getCurrentUserId : W -> Reply Z * W;
  listAllComments : W -> Reply (list IssueComment) * W;
  listAllReviewComments : W -> Reply (list ReviewComment) * W;
  deleteComment : Z -> W -> Reply unit * W;
  deleteReviewComment : Z -> W -> Reply unit * W
}.

End IGitHubPRService.

(* ===================================================================== *)
(** * The reporter: [class GitHub implements VCS]                         *)
(* ===================================================================== *)

Module GitHub.

(** The private mutable fields of an instance. *)
Record Fields : Type := mkFields {
  commitId : string;
  touchedDiff : list Diff;
  comments : list Comment;
  nWarning : Z;
  nError : Z
}.

Section Reporter.

Context {W : Type}.

(** The constructor parameters. *)
Record t : Type := mk {
  prService : IGitHubPRService.t W;
  removeOldComment : bool
}.

(** [new GitHub(prService, removeOldComment = false)]. *)
Definition new (prService : IGitHubPRService.t W) (removeOldComment : option bool) : t :=
  mk prService (match removeOldComment with Some b => b | None => false end).

(** The state a run threads: the world behind the adapter, the fields of
    the instance, the adapter calls issued so far and the lines logged so
    far. *)
Record State : Type := mkState {
  world : W;
  this : Fields;
  trace : list Event;
  logged : list LogEntry
}.

(** An async computation: it either throws or returns, and leaves a state. *)
Definition Async (A : Type) : Type := State -> (Error + A) * State.

Definition ret {A : Type} (a : A) : Async A := fun st => (inr a, st).

Definition bind {A B : Type} (m : Async A) (k : A -> Async B) : Async B :=
  fun st =>
    match m st with
    | (inl e, st') => (inl e, st')
    | (inr a, st') => k a st'
    end.

Definition throw {A : Type} (e : Error) : Async A := fun st => (inl e, st).

Definition tryCatch {A : Type} (body : Async A) (handler : Error -> Async A) : Async A :=
  fun st =>
    match body st with
    | (inl e, st') => handler e st'
    | (inr a, st') => (inr a, st')
    end.

Local Notation "x <- m ;; k" := (bind m (fun x => k))
  (at level 61, m at next level, right associativity).
Local Notation "m ;; k" := (bind m (fun _ => k))
  (at level 61, right associativity).

Definition getThis : Async Fields := fun st => (inr (this st), st).

Definition setThis (f : Fields -> Fields) : Async unit :=
  fun st => (inr tt, mkState (world st) (f (this st)) (trace st) (logged st)).

Definition write (lines : list LogEntry) : Async unit :=
  fun st => (inr tt, mkState (world st) (this st) (trace st) (logged st ++ lines)).

(** Calling an adapter method: the call is issued and recorded at once,
    and a promise comes back. *)
Definition invoke {A : Type} (c : Call) (inj : A -> Response)
    (method : W -> IGitHubPRService.Reply A * W) : Async (Promise A) :=
  fun st =>
    let '((t, r), w) := method (world st) in
    let result := match r with inl e => inl e | inr a => inr (inj a) end in
    (inr (mkPromise t r []),
     mkState w (this st) (trace st ++ [mkEvent c result]) (logged st)).

(** [await p]. *)
Definition await {A : Type} (p : Promise A) : Async A :=
  fun st => (outcome p, mkState (world st) (this st) (trace st) (logged st ++ onSettled p)).

(** [await Promise.all(ps)]: fulfilled with all the values once every
    promise is fulfilled, rejected as soon as one promise rejects.  The
    log receives the lines of the continuations that ran by then. *)
Definition promiseAll {A : Type} (ps : list (Promise A)) : Async (list A) :=
  match firstRejection (map settlement ps) with
  | Some (t, e) => write (writtenBefore t ps) ;; throw e
  | None => write (flat_map (@onSettled A) ps) ;; ret (fulfilledValues ps)
  end.

(** [await Promise.all([p1, p2, p3])] on a tuple of adapter promises.
    The last three cases of the inner match are not reached: they have a
    rejection, which [firstRejection] would have found. *)
Definition promiseAll3 {A B C : Type} (p1 : Promise A) (p2 : Promise B) (p3 : Promise C)
    : Async (A * B * C) :=
  match firstRejection [settlement p1; settlement p2; settlement p3] with
  | Some (_, e) => throw e
  | None =>
      match outcome p1, outcome p2, outcome p3 with
      | inr a, inr b, inr c => ret (a, b, c)
      | inl e, _, _ => throw e
      | _, inl e, _ => throw e
      | _, _, inl e => throw e
      end
  end.

(** [xs.map(f)] where [f] has effects: the calls are made in list order. *)
Fixpoint mapA {A B : Type} (f : A -> Async B) (xs : list A) : Async (list B) :=
  match xs with
  | [] => ret []
  | x :: rest =>
      y <- f x ;;
      ys <- mapA f rest ;;
      ret (y :: ys)
  end.

Variable self : t.
Variable MessageUtil : MessageUtilT.

(** [cs.reduce((sum, comment) => sum + comment.f, 0)]. *)
Definition sumOf (f : Comment -> Z) (cs : list Comment) : Z :=
  fold_left (fun sum comment => sum + f comment) cs 0.

(** The filter stage of [setup]:
    [logs.filter(onlySeverity(error, warning)).filter(onlyIn(touchedDiff))]. *)
Definition touchedFileLog (touchedDiff : list Diff) (logs : list LogType) : list LogType :=
  filter (FilterUtil.onlyIn touchedDiff)
    (filter (FilterUtil.onlySeverity [error; warning]) logs).

Definition setup (logs : list LogType) : Async unit :=
  p <- invoke GetLatestCommitSha RSha (IGitHubPRService.getLatestCommitSha (prService self)) ;;
  sha <- await p ;;
  setThis (fun f => mkFields sha (touchedDiff f) (comments f) (nWarning f) (nError f)) ;;
  p <- invoke GetDiff RDiff (IGitHubPRService.diff (prService self)) ;;
  d <- await p ;;
  setThis (fun f => mkFields (commitId f) d (comments f) (nWarning f) (nError f)) ;;
  setThis (fun f => mkFields (commitId f) (touchedDiff f)
                      (CommentUtil.groupComments MessageUtil
                         (touchedFileLog (touchedDiff f) logs))
                      (nWarning f) (nError f)) ;;
  setThis (fun f => mkFields (commitId f) (touchedDiff f) (comments f) (nWarning f)
                      (sumOf errors (comments f))) ;;
  setThis (fun f => mkFields (commitId f) (touchedDiff f) (comments f)
                      (sumOf warnings (comments f)) (nError f)) ;;
  write [LogDebug "VCS Setup"].

(** The author test of [removeExistingComments]: [x.user?.id === userId]. *)
Definition authoredBy (userId : Z) (user : option User) : bool :=
  match user with
  | Some u => Z.eqb (user_id u) userId
  | None => false
  end.

Definition removeExistingComments : Async unit :=
  p1 <- invoke GetCurrentUserId RUserId (IGitHubPRService.getCurrentUserId (prService self)) ;;
  p2 <- invoke ListAllComments RComments (IGitHubPRService.listAllComments (prService self)) ;;
  p3 <- invoke ListAllReviewComments RReviews
          (IGitHubPRService.listAllReviewComments (prService self)) ;;
  r <- promiseAll3 p1 p2 p3 ;;
  let '(userId, existing, reviews) := r in
  write [LogDebug "Get existing CodeCoach comments completed"] ;;
  deleteComments <-
    mapA (fun comment =>
            invoke (DeleteComment (comment_id comment)) (fun _ => RDone)
              (IGitHubPRService.deleteComment (prService self) (comment_id comment)))
         (filter (fun comment => authoredBy userId (comment_user comment)) existing) ;;
  deleteReviews <-
    mapA (fun review =>
            invoke (DeleteReviewComment (review_id review)) (fun _ => RDone)
              (IGitHubPRService.deleteReviewComment (prService self) (review_id review)))
         (filter (fun review => authoredBy userId (review_user review)) reviews) ;;
  promiseAll (deleteComments ++ deleteReviews) ;;
  write [LogDebug "Delete CodeCoach comments completed"].

(** An async function called without [await]: it runs up to its first
    [await], so the adapter call is issued at once; the rest of its body
    runs when the adapter promise settles. *)
Definition createReviewComment (comment : Comment) : Async (Promise Comment) :=
  f <- getThis ;;
  p <- invoke (CreateReviewComment (commitId f) (text comment) (file comment) (cline comment))
         (fun _ => RDone)
         (IGitHubPRService.createReviewComment (prService self)
            (commitId f) (text comment) (file comment) (cline comment)) ;;
  ret (andThen p [LogDebug "GitHub create review success"] (fun _ => comment)).

Definition createSummaryComment : Async unit :=
  f <- getThis ;;
  if 0 <? nWarning f + nError f then
    let overview := generateOverviewMessage MessageUtil (nError f) (nWarning f) in
    p <- invoke (CreateComment overview) (fun _ => RDone)
           (IGitHubPRService.createComment (prService self) overview) ;;
    await p ;;
    write [LogInfo "Create summary comment completed"]
  else
    write [LogInfo "No summary comment needed"].

Definition setCommitStatus : Async unit :=
  f <- getThis ;;
  let commitStatus := if 0 <? nError f then failure else success in
  let description := generateCommitDescription MessageUtil (nError f) in
  p <- invoke (SetCommitStatus (commitId f) commitStatus description) (fun _ => RDone)
         (IGitHubPRService.setCommitStatus (prService self)
            (commitId f) commitStatus description) ;;
  await p.

Definition report (logs : list LogType) : Async bool :=
  tryCatch
    (setup logs ;;
     (if removeOldComment self then removeExistingComments else ret tt) ;;
     f <- getThis ;;
     posts <- mapA createReviewComment (comments f) ;;
     promiseAll posts ;;
     createSummaryComment ;;
     setCommitStatus ;;
     write [LogInfo "Report commit status completed"])
    (fun err =>
       write [LogError "GitHub report failed" err] ;;
       throw err) ;;
  ret true.

End Reporter.

Arguments t W : clear implicits.
Arguments State W : clear implicits.
Arguments Async W A : clear implicits.

(** One invocation of [report] on an instance whose fields hold [fields0],
    in the world [w]: the result and the final state. *)
Definition run {W : Type} (self : t W) (MessageUtil : MessageUtilT)
    (logs : list LogType) (w : W) (fields0 : Fields) : (Error + bool) * State W :=
  report self MessageUtil logs (mkState w fields0 [] []).

End GitHub.

(* ===================================================================== *)
(** * A scripted adapter, after the mock service of the repository tests  *)
(* ===================================================================== *)

Module Mock.

(** The canned answers of the mock, and the calls it is told to reject. *)
Record Script : Type := mkScript {
  latestSha : string;
  diffs : list Diff;
  currentUserId : Z;
  existingComments : list IssueComment;
  existingReviews : list ReviewComment;
  rejects : Call -> option Error
}.

Definition reply {A : Type} (s : Script) (c : Call) (a : A) (clock : nat)
    : IGitHubPRService.Reply A * nat :=
  match rejects s c with
  | Some e => ((clock, inl e), S clock)
  | None => ((clock, inr a), S clock)
  end.

(** The world of the mock is a clock: each call settles one tick after
    the previous one. *)
Definition service (s : Script) : IGitHubPRService.t nat :=
  IGitHubPRService.mk
    (reply s GetLatestCommitSha (latestSha s))
    (reply s GetDiff (diffs s))
    (fun body => reply s (CreateComment body) tt)
    (fun sha body path l => reply s (CreateReviewComment sha body path l) tt)
    (fun sha state description => reply s (SetCommitStatus sha state description) tt)
    (reply s GetCurrentUserId (currentUserId s))
    (reply s ListAllComments (existingComments s))
    (reply s ListAllReviewComments (existingReviews s))
    (fun id => reply s (DeleteComment id) tt)
    (fun id => reply s (DeleteReviewComment id) tt).

Definition messages : MessageUtilT :=
  mkMessageUtil
    (fun nOfErrors nOfWarnings => "overview")
    (fun nOfErrors => if 0 <? nOfErrors then "errors found" else "no error")
    (fun logs => String.concat ", " (map msg logs)).

Definition neverRejects : Call -> option Error := fun _ => None.

Definition mockTouchDiff : Diff := mkDiff "src/app.ts" [10; 11; 12].

Definition touchFileError : LogType := mkLog "src/app.ts" 11 error "unused variable".
Definition touchFileWarning : LogType := mkLog "src/app.ts" 12 warning "prefer const".
Definition untouchedError : LogType := mkLog "src/app.ts" 40 error "missing return".
Definition untouchedWarning : LogType := mkLog "src/other.ts" 11 warning "any type".

Definition mockCurrentUserId : Z := 123456.

Definition mockComments : list IssueComment :=
  [mkIssueComment 1 (Some (mkUser mockCurrentUserId)) (Some true);
   mkIssueComment 6544321 (Some (mkUser mockCurrentUserId)) (Some false);
   mkIssueComment 3 (Some (mkUser 99)) (Some false);
   mkIssueComment 4 None None].

Definition mockReviews : list ReviewComment :=
  [mkReviewComment 7 (Some (mkUser 99));
   mkReviewComment 8 (Some (mkUser mockCurrentUserId));
   mkReviewComment 9 None].

Definition script (rejects : Call -> option Error) : Script :=
  mkScript "cafe01" [mockTouchDiff] mockCurrentUserId mockComments mockReviews rejects.

Definition blank : GitHub.Fields := GitHub.mkFields "" [] [] 0 0.

Definition github (rejects : Call -> option Error) (removeOldComment : option bool)
    : GitHub.t nat :=
  GitHub.new (service (script rejects)) removeOldComment.

Definition allFindings : list LogType :=
  [touchFileError; touchFileWarning; untouchedError; untouchedWarning].

(** Three instances over the mock: with clean-up, without (the
    constructor default), and with clean-up against an adapter that
    rejects the deletion of comment 1. *)
Definition cleaning : GitHub.t nat := github neverRejects (Some true).

Definition plain : GitHub.t nat := github neverRejects None.

Definition rejectDeleteOne : Call -> option Error :=
  fun c => match c with
           | DeleteComment 1 => Some "Bad credentials"
           | _ => None
           end.

Definition failing : GitHub.t nat := github rejectDeleteOne (Some true).

(** Four runs: a clean-up run over findings on touched and untouched
    lines, a run over one touched error without clean-up, a clean-up run
    over findings on untouched lines only, and a clean-up run in which a
    deletion is rejected. *)
Definition fullRun : (Error + bool) * GitHub.State nat :=
  GitHub.run cleaning messages allFindings 0%nat blank.

Definition errorRun : (Error + bool) * GitHub.State nat :=
  GitHub.run plain messages [touchFileError] 0%nat blank.

Definition untouchedFindings : list LogType := [untouchedError; untouchedWarning].

Definition untouchedRun : (Error + bool) * GitHub.State nat :=
  GitHub.run cleaning messages untouchedFindings 0%nat blank.

Definition failedRun : (Error + bool) * GitHub.State nat :=
  GitHub.run failing messages allFindings 0%nat blank.

(** Two more failing adapters, one that rejects [getLatestCommitSha] and
    one that rejects [setCommitStatus], their runs from fields left by an
    earlier report, and these fields. *)
Definition rejectSha : Call -> option Error :=
  fun c => match c with
           | GetLatestCommitSha => Some "Not Found"
           | _ => None
           end.

Definition rejectStatus : Call -> option Error :=
  fun c => match c with
           | SetCommitStatus _ _ _ => Some "Validation Failed"
           | _ => None
           end.

Definition stale : GitHub.Fields :=
  GitHub.mkFields "0ld5ha" [mkDiff "README.md" [1]]
    [mkComment "typo" "README.md" 1 0 1] 1 0.

Definition shaFailedRun : (Error + bool) * GitHub.State nat :=
  GitHub.run (github rejectSha (Some true)) messages allFindings 0%nat stale.

Definition statusFailedRun : (Error + bool) * GitHub.State nat :=
  GitHub.run (github rejectStatus None) messages allFindings 0%nat stale.

(** Two events of the first run: the listing of the top-level comments
    and the first inline post. *)
Definition commentsListed : Event :=
  mkEvent ListAllComments (inr (RComments mockComments)).

Definition firstPost : Event :=
  mkEvent (CreateReviewComment "cafe01" "unused variable" "src/app.ts" 11) (inr RDone).

End Mock.

(* ===================================================================== *)
(** * The shape of a run                                                  *)
(* ===================================================================== *)

Definition ok (c : Call) (r : Response) : Event := mkEvent c (inr r).

Definition fulfilled (ev : Event) : bool :=
  match ev_result ev with
  | inr _ => true
  | inl _ => false
  end.

(** The event of a call that answers nothing: rejected or done. *)
Definition unitResult {A : Type} (r : Error + A) : Error + Response :=
  match r with
  | inl e => inl e
  | inr _ => inr RDone
  end.

Definition batchEvents {A : Type} (calls : list Call) (ps : list (Promise A)) : list Event :=
  map (fun cp => mkEvent (fst cp) (unitResult (outcome (snd cp)))) (combine calls ps).

Definition done (calls : list Call) : list Event :=
  map (fun c => ok c RDone) calls.

(** The stage of the run a call belongs to; the calls of one stage are
    issued together and awaited jointly. *)
Definition stage (c : Call) : nat :=
  match c with
  | GetLatestCommitSha => 0
  | GetDiff => 1
  | GetCurrentUserId | ListAllComments | ListAllReviewComments => 2
  | DeleteComment _ | DeleteReviewComment _ => 3
  | CreateReviewComment _ _ _ _ => 4
  | CreateComment _ => 5
  | SetCommitStatus _ _ _ => 6
  end%nat.

(** Tests on the stage of a call: [isSetup] holds of [getLatestCommitSha]
    and [diff], [isListing] of the three listings, [isDelete] of the two
    deletions, [isCleanup] of listings and deletions, [isReviewPost] of
    [createReviewComment], [isSummaryPost] of [createComment] and
    [isStatus] of [setCommitStatus]. *)
Definition atStage (q : nat -> bool) (c : Call) : bool := q (stage c).

Definition isSetup : Call -> bool := atStage (fun k => k <=? 1)%nat.
Definition isListing : Call -> bool := atStage (Nat.eqb 2).
Definition isDelete : Call -> bool := atStage (Nat.eqb 3).
Definition isCleanup : Call -> bool := atStage (fun k => (2 <=? k) && (k <=? 3))%nat.
Definition isReviewPost : Call -> bool := atStage (Nat.eqb 4).
Definition isSummaryPost : Call -> bool := atStage (Nat.eqb 5).
Definition isStatus : Call -> bool := atStage (Nat.eqb 6).

(** The events of a trace whose call satisfies [p], and their calls, in
    the order of issue. *)
Definition eventsWhere (p : Call -> bool) (tr : list Event) : list Event :=
  filter (fun ev => p (ev_call ev)) tr.

Definition callsWhere (p : Call -> bool) (tr : list Event) : list Call :=
  map ev_call (eventsWhere p tr).

(** A batch: events of one stage. *)
Definition uniform (k : nat) (seg : list Event) : Prop :=
  Forall (fun ev => stage (ev_call ev) = k) seg.

Fixpoint groupTotal (p : LogType -> bool) (gs : list CommentUtil.Group) : Z :=
  match gs with
  | [] => 0
  | g :: rest => CommentUtil.countZ p (CommentUtil.g_logs g) + groupTotal p rest
  end.

Section Shape.

Context {W : Type}.
Variable self : GitHub.t W.
Variable MessageUtil : MessageUtilT.
Variable logs : list LogType.

(** The comments of a run whose adapter answered the diff [d], and the
    totals [setup] derives from them. *)
Definition commentsOf (d : list Diff) : list Comment :=
  CommentUtil.groupComments MessageUtil (GitHub.touchedFileLog d logs).

Definition totalErrors (d : list Diff) : Z := GitHub.sumOf errors (commentsOf d).

Definition totalWarnings (d : list Diff) : Z := GitHub.sumOf warnings (commentsOf d).

Definition fieldsAfterSetup (sha : string) (d : list Diff) : GitHub.Fields :=
  GitHub.mkFields sha d (commentsOf d) (totalWarnings d) (totalErrors d).

Definition setupEvents (sha : string) (d : list Diff) : list Event :=
  [ok GetLatestCommitSha (RSha sha); ok GetDiff (RDiff d)].

Definition listingCalls : list Call :=
  [GetCurrentUserId; ListAllComments; ListAllReviewComments].

Definition listingEvents (uid : Z) (cs : list IssueComment) (rs : list ReviewComment)
    : list Event :=
  [ok GetCurrentUserId (RUserId uid); ok ListAllComments (RComments cs);
   ok ListAllReviewComments (RReviews rs)].

Definition deleteCalls (uid : Z) (cs : list IssueComment) (rs : list ReviewComment)
    : list Call :=
  map (fun c => DeleteComment (comment_id c))
      (filter (fun c => GitHub.authoredBy uid (comment_user c)) cs)
  ++ map (fun r => DeleteReviewComment (review_id r))
         (filter (fun r => GitHub.authoredBy uid (review_user r)) rs).

Definition postCall (sha : string) (c : Comment) : Call :=
  CreateReviewComment sha (text c) (file c) (cline c).

Definition postCalls (sha : string) (d : list Diff) : list Call :=
  map (postCall sha) (commentsOf d).

Definition summaryCalls (d : list Diff) : list Call :=
  if 0 <? totalWarnings d + totalErrors d
  then [CreateComment (generateOverviewMessage MessageUtil (totalErrors d) (totalWarnings d))]
  else [].

Definition statusCall (sha : string) (d : list Diff) : Call :=
  SetCommitStatus sha
    (if 0 <? totalErrors d then failure else success)
    (generateCommitDescription MessageUtil (totalErrors d)).

Definition rejects (e : Error) (seg : list Event) : Prop :=
  exists ev, In ev seg /\ ev_result ev = inl e.

(** The events of the clean-up stage when it went through: none when the
    instance does not remove old comments, else the three listings and
    one fulfilled deletion per selected comment. *)
Inductive Cleaned : list Event -> Prop :=
| cleaned_skipped :
    GitHub.removeOldComment self = false ->
    Cleaned []
| cleaned_removed (uid : Z) (cs : list IssueComment) (rs : list ReviewComment) :
    GitHub.removeOldComment self = true ->
    Cleaned (listingEvents uid cs rs ++ done (deleteCalls uid cs rs)).

(** Every run of [report] from fields [f0] has one of eight shapes: one
    per adapter stage that can reject, and the completed run. *)
Inductive Shape (f0 : GitHub.Fields) : Error + bool -> list Event -> GitHub.Fields -> Prop :=
| shape_sha_rejected e :
    Shape f0 (inl e) [mkEvent GetLatestCommitSha (inl e)] f0
| shape_diff_rejected sha e :
    Shape f0 (inl e)
      [ok GetLatestCommitSha (RSha sha); mkEvent GetDiff (inl e)]
      (GitHub.mkFields sha (GitHub.touchedDiff f0) (GitHub.comments f0)
         (GitHub.nWarning f0) (GitHub.nError f0))
| shape_listing_rejected sha d seg e :
    GitHub.removeOldComment self = true ->
    map ev_call seg = listingCalls ->
    rejects e seg ->
    Shape f0 (inl e) (setupEvents sha d ++ seg) (fieldsAfterSetup sha d)
| shape_delete_rejected sha d uid cs rs seg e :
    GitHub.removeOldComment self = true ->
    map ev_call seg = deleteCalls uid cs rs ->
    rejects e seg ->
    Shape f0 (inl e) (setupEvents sha d ++ listingEvents uid cs rs ++ seg)
      (fieldsAfterSetup sha d)
| shape_post_rejected sha d clean seg e :
    Cleaned clean ->
    map ev_call seg = postCalls sha d ->
    rejects e seg ->
    Shape f0 (inl e) (setupEvents sha d ++ clean ++ seg) (fieldsAfterSetup sha d)
| shape_summary_rejected sha d clean e :
    Cleaned clean ->
    (0 <? totalWarnings d + totalErrors d) = true ->
    Shape f0 (inl e)
      (setupEvents sha d ++ clean ++ done (postCalls sha d)
       ++ [mkEvent (CreateComment (generateOverviewMessage MessageUtil
                                     (totalErrors d) (totalWarnings d))) (inl e)])
      (fieldsAfterSetup sha d)
| shape_status_rejected sha d clean e :
    Cleaned clean ->
    Shape f0 (inl e)
      (setupEvents sha d ++ clean ++ done (postCalls sha d) ++ done (summaryCalls d)
       ++ [mkEvent (statusCall sha d) (inl e)])
      (fieldsAfterSetup sha d)
| shape_completed sha d clean :
    Cleaned clean ->
    Shape f0 (inr true)
      (setupEvents sha d ++ clean ++ done (postCalls sha d) ++ done (summaryCalls d)
       ++ [ok (statusCall sha d) RDone])
      (fieldsAfterSetup sha d).

Definition cleanupOutcome (st : GitHub.State W) (res : (Error + unit) * GitHub.State W)
    : Prop :=
  (exists e w lg seg,
      res = (inl e, GitHub.mkState w (GitHub.this st) (GitHub.trace st ++ seg) lg)
      /\ map ev_call seg = listingCalls /\ rejects e seg)
  \/ (exists e w lg uid cs rs seg,
      res = (inl e, GitHub.mkState w (GitHub.this st)
                      (GitHub.trace st ++ listingEvents uid cs rs ++ seg) lg)
      /\ map ev_call seg = deleteCalls uid cs rs /\ rejects e seg)
  \/ (exists w lg uid cs rs,
      res = (inr tt, GitHub.mkState w (GitHub.this st)
                       (GitHub.trace st ++ listingEvents uid cs rs
                        ++ done (deleteCalls uid cs rs)) lg)).

Definition summaryOutcome (st : GitHub.State W) (res : (Error + unit) * GitHub.State W)
    : Prop :=
  let f := GitHub.this st in
  let overview :=
    generateOverviewMessage MessageUtil (GitHub.nError f) (GitHub.nWarning f) in
  (exists lg,
      (0 <? GitHub.nWarning f + GitHub.nError f) = false
      /\ res = (inr tt, GitHub.mkState (GitHub.world st) f (GitHub.trace st) lg))
  \/ (exists e w lg,
      (0 <? GitHub.nWarning f + GitHub.nError f) = true
      /\ res = (inl e, GitHub.mkState w f
                         (GitHub.trace st ++ [mkEvent (CreateComment overview) (inl e)]) lg))
  \/ (exists w lg,
      (0 <? GitHub.nWarning f + GitHub.nError f) = true
      /\ res = (inr tt, GitHub.mkState w f
                          (GitHub.trace st ++ [ok (CreateComment overview) RDone]) lg)).

Definition statusOutcome (st : GitHub.State W) (res : (Error + unit) * GitHub.State W)
    : Prop :=
  let f := GitHub.this st in
  let call :=
    SetCommitStatus (GitHub.commitId f)
      (if 0 <? GitHub.nError f then failure else success)
      (generateCommitDescription MessageUtil (GitHub.nError f)) in
  (exists e w lg,
      res = (inl e, GitHub.mkState w f (GitHub.trace st ++ [mkEvent call (inl e)]) lg))
  \/ (exists w lg,
      res = (inr tt, GitHub.mkState w f (GitHub.trace st ++ [ok call RDone]) lg)).

Definition cleanStep : GitHub.Async W unit :=
  if GitHub.removeOldComment self then GitHub.removeExistingComments self else GitHub.ret tt.

(** The findings the filter stage retains for the diff [d], counted by
    severity. *)
Definition errorCount (d : list Diff) : Z :=
  CommentUtil.countZ CommentUtil.isError (GitHub.touchedFileLog d logs).

Definition warningCount (d : list Diff) : Z :=
  CommentUtil.countZ CommentUtil.isWarning (GitHub.touchedFileLog d logs).

(** [before a b]: what must hold of an event [a] issued before an event
    [b]: the stage of [a] is not later, and if it is earlier then [a] was
    fulfilled. *)
Definition before (a b : Event) : Prop :=
  (stage (ev_call a) <= stage (ev_call b))%nat
  /\ ((stage (ev_call a) < stage (ev_call b))%nat -> fulfilled a = true).

(** A trace made of fulfilled batches of stages below [k], in order. *)
Definition settledBelow (k : nat) (tr : list Event) : Prop :=
  StronglySorted before tr
  /\ Forall (fun ev => (stage (ev_call ev) < k)%nat /\ fulfilled ev = true) tr.

(** The number of deletion calls a trace holds for the top-level comment
    [id], and for the review comment [id]. *)
Definition commentDeletions (id : Z) (tr : list Event) : nat :=
  length (filter (fun ev => match ev_call ev with
                            | DeleteComment i => Z.eqb i id
                            | _ => false
                            end) tr).

Definition reviewDeletions (id : Z) (tr : list Event) : nat :=
  length (filter (fun ev => match ev_call ev with
                            | DeleteReviewComment i => Z.eqb i id
                            | _ => false
                            end) tr).

(** The phases of a run as the spec counts them: setup, clean-up, inline
    comments, summary comment, commit status. *)
Definition phase (c : Call) : nat :=
  match c with
  | GetLatestCommitSha | GetDiff => 0
  | GetCurrentUserId | ListAllComments | ListAllReviewComments
  | DeleteComment _ | DeleteReviewComment _ => 1
  | CreateReviewComment _ _ _ _ => 2
  | CreateComment _ => 3
  | SetCommitStatus _ _ _ => 4
  end%nat.

(** Every adapter call of the reporter is issued once: the single calls
    at most once, the listings as one batch, one deletion per selected
    comment and one post per grouped comment. *)
Definition issuedOnce (f : GitHub.Fields) (tr : list Event) : Prop :=
  (length (eventsWhere (atStage (Nat.eqb 0)) tr) <= 1)%nat
  /\ (length (eventsWhere (atStage (Nat.eqb 1)) tr) <= 1)%nat
  /\ (length (eventsWhere isSummaryPost tr) <= 1)%nat
  /\ (length (eventsWhere isStatus tr) <= 1)%nat
  /\ (callsWhere isListing tr = [] \/ callsWhere isListing tr = listingCalls)
  /\ (callsWhere isDelete tr = []
      \/ exists uid cs rs,
           eventsWhere isListing tr = listingEvents uid cs rs
           /\ callsWhere isDelete tr = deleteCalls uid cs rs)
  /\ (callsWhere isReviewPost tr = []
      \/ callsWhere isReviewPost tr
         = map (postCall (GitHub.commitId f)) (GitHub.comments f)).

(** ** Joint waits *)

Lemma firstRejection_none (batch : list (nat * option Error)) :
  firstRejection batch = None <-> Forall (fun s => snd s = None) batch.
Proof.
  induction batch as [|[t r] rest IH]; simpl.
  - split; [constructor | reflexivity].
  - destruct r as [e|].
    + split.
      * destruct (firstRejection rest) as [[t' e']|]; [|discriminate].
        destruct (t' <? t)%nat; discriminate.
      * intros H. inversion H; subst. discriminate.
    + rewrite IH. split.
      * intros H. constructor; [reflexivity | exact H].
      * intros H. inversion H; assumption.
Qed.

Lemma firstRejection_some (batch : list (nat * option Error)) t e :
  firstRejection batch = Some (t, e) -> In (t, Some e) batch.
Proof.
  revert t e. induction batch as [|[t0 r] rest IH]; simpl; intros t e H.
  - discriminate.
  - destruct r as [e0|].
    + destruct (firstRejection rest) as [[t' e']|].
      * destruct (t' <? t0)%nat; inversion H; subst.
        -- right. apply IH. reflexivity.
        -- left. reflexivity.
      * inversion H; subst. left. reflexivity.
    + right. apply IH. exact H.
Qed.

Lemma rejection_some {A : Type} (r : Error + A) e :
  rejection r = Some e <-> r = inl e.
Proof.
  destruct r; simpl; split; intros H; inversion H; reflexivity.
Qed.

Lemma settlement_rejected {A : Type} (ps : list (Promise A)) t e :
  In (t, Some e) (map settlement ps) -> exists p, In p ps /\ outcome p = inl e.
Proof.
  rewrite in_map_iff. intros [p [Hs Hin]].
  exists p. split; [exact Hin|].
  unfold settlement in Hs. inversion Hs. apply rejection_some. assumption.
Qed.

Lemma settlement_fulfilled {A : Type} (ps : list (Promise A)) :
  Forall (fun s => snd s = None) (map settlement ps) ->
  Forall (fun p => exists a, outcome p = inr a) ps.
Proof.
  rewrite Forall_map. apply Forall_impl. intros p. unfold settlement; simpl.
  destruct (outcome p) as [e|a]; simpl; intros H; [discriminate | eauto].
Qed.

(** ** Events of a batch *)

Lemma batchEvents_calls {A : Type} (calls : list Call) (ps : list (Promise A)) :
  length ps = length calls -> map ev_call (batchEvents calls ps) = calls.
Proof.
  revert ps. induction calls as [|c calls IH]; intros [|p ps] H; simpl in *; try discriminate.
  - reflexivity.
  - f_equal. apply IH. lia.
Qed.

Lemma batchEvents_done {A : Type} (calls : list Call) (ps : list (Promise A)) :
  length ps = length calls ->
  Forall (fun p => exists a, outcome p = inr a) ps ->
  batchEvents calls ps = done calls.
Proof.
  revert ps. induction calls as [|c calls IH]; intros [|p ps] H Hall; simpl in *; try discriminate.
  - reflexivity.
  - inversion Hall as [|? ? [a Ha] Hrest]; subst.
    unfold batchEvents in *. simpl. rewrite Ha. simpl. f_equal. apply IH; [lia | assumption].
Qed.

Lemma batchEvents_rejected {A : Type} (calls : list Call) (ps : list (Promise A)) p e :
  length ps = length calls -> In p ps -> outcome p = inl e ->
  exists ev, In ev (batchEvents calls ps) /\ ev_result ev = inl e.
Proof.
  revert ps. induction calls as [|c calls IH]; intros [|q ps] H Hin He; simpl in *;
    try discriminate; try contradiction.
  destruct Hin as [->|Hin].
  - eexists. split; [left; reflexivity|]. simpl. rewrite He. reflexivity.
  - destruct (IH ps) as [ev [Hev Hr]]; [lia | assumption | assumption |].
    exists ev. split; [right; exact Hev | exact Hr].
Qed.

Lemma batchEvents_app {A : Type} (c1 c2 : list Call) (p1 p2 : list (Promise A)) :
  length p1 = length c1 ->
  batchEvents (c1 ++ c2) (p1 ++ p2) = batchEvents c1 p1 ++ batchEvents c2 p2.
Proof.
  revert p1. induction c1 as [|c c1 IH]; intros [|p p1] H; simpl in *; try discriminate.
  - reflexivity.
  - unfold batchEvents in *. simpl. f_equal. apply IH. lia.
Qed.

(** ** Totals of the grouped comments *)

Lemma countZ_snoc (p : LogType -> bool) (ls : list LogType) (log : LogType) :
  CommentUtil.countZ p (ls ++ [log])
  = CommentUtil.countZ p ls + CommentUtil.countZ p [log].
Proof.
  unfold CommentUtil.countZ. rewrite filter_app, length_app. lia.
Qed.

Lemma countZ_cons (p : LogType -> bool) (log : LogType) (ls : list LogType) :
  CommentUtil.countZ p (log :: ls)
  = CommentUtil.countZ p [log] + CommentUtil.countZ p ls.
Proof.
  unfold CommentUtil.countZ. simpl. destruct (p log); simpl length; lia.
Qed.

Lemma countZ_nonneg (p : LogType -> bool) (ls : list LogType) :
  0 <= CommentUtil.countZ p ls.
Proof. unfold CommentUtil.countZ. lia. Qed.

Lemma addToGroups_total (p : LogType -> bool) (log : LogType) (gs : list CommentUtil.Group) :
  groupTotal p (CommentUtil.addToGroups log gs)
  = groupTotal p gs + CommentUtil.countZ p [log].
Proof.
  induction gs as [|g rest IH]; simpl.
  - lia.
  - destruct (CommentUtil.atGroup log g); simpl.
    + rewrite countZ_snoc. lia.
    + rewrite IH. lia.
Qed.

Lemma groupLogs_total (p : LogType -> bool) (ls : list LogType) :
  groupTotal p (CommentUtil.groupLogs ls) = CommentUtil.countZ p ls.
Proof.
  unfold CommentUtil.groupLogs.
  assert (H : forall acc,
             groupTotal p (fold_left (fun gs log => CommentUtil.addToGroups log gs) ls acc)
             = groupTotal p acc + CommentUtil.countZ p ls).
  { induction ls as [|log rest IH]; intros acc; simpl.
    - unfold CommentUtil.countZ. simpl. lia.
    - rewrite IH, addToGroups_total, (countZ_cons p log rest). lia. }
  rewrite H. simpl. lia.
Qed.

Lemma sumOf_shift (f : Comment -> Z) (cs : list Comment) (a : Z) :
  fold_left (fun sum comment => sum + f comment) cs a = a + GitHub.sumOf f cs.
Proof.
  unfold GitHub.sumOf.
  assert (H : forall b, fold_left (fun sum comment => sum + f comment) cs (a + b)
                        = a + fold_left (fun sum comment => sum + f comment) cs b).
  { induction cs as [|c cs IH]; intros b; simpl.
    - reflexivity.
    - rewrite <- Z.add_assoc. apply IH. }
  rewrite <- H. f_equal. lia.
Qed.

Lemma sumOf_errors (mu : MessageUtilT) (ls : list LogType) :
  GitHub.sumOf errors (CommentUtil.groupComments mu ls)
  = CommentUtil.countZ CommentUtil.isError ls.
Proof.
  unfold CommentUtil.groupComments. rewrite <- groupLogs_total.
  induction (CommentUtil.groupLogs ls) as [|g gs IH]; simpl.
  - reflexivity.
  - unfold GitHub.sumOf in *. simpl. rewrite sumOf_shift. unfold GitHub.sumOf.
    rewrite IH. simpl. lia.
Qed.

Lemma sumOf_warnings (mu : MessageUtilT) (ls : list LogType) :
  GitHub.sumOf warnings (CommentUtil.groupComments mu ls)
  = CommentUtil.countZ CommentUtil.isWarning ls.
Proof.
  unfold CommentUtil.groupComments. rewrite <- groupLogs_total.
  induction (CommentUtil.groupLogs ls) as [|g gs IH]; simpl.
  - reflexivity.
  - unfold GitHub.sumOf in *. simpl. rewrite sumOf_shift. unfold GitHub.sumOf.
    rewrite IH. simpl. lia.
Qed.

(** ** The steps of a run, one by one *)

Lemma mapA_issues {X A : Type} (f : X -> GitHub.Async W (Promise A))
    (c : GitHub.Fields -> X -> Call) :
  (forall x st, exists p w,
      f x st = (inr p, GitHub.mkState w (GitHub.this st)
                         (GitHub.trace st ++ [mkEvent (c (GitHub.this st) x)
                                                (unitResult (outcome p))])
                         (GitHub.logged st))) ->
  forall xs st, exists ps w,
      GitHub.mapA f xs st
      = (inr ps, GitHub.mkState w (GitHub.this st)
                   (GitHub.trace st ++ batchEvents (map (c (GitHub.this st)) xs) ps)
                   (GitHub.logged st))
      /\ length ps = length xs.
Proof.
  intros Hf xs. induction xs as [|x xs IH]; intros st; simpl.
  - exists [], (GitHub.world st). unfold GitHub.ret, batchEvents. simpl.
    rewrite app_nil_r. destruct st; auto.
  - unfold GitHub.bind. destruct (Hf x st) as [p [w Hp]]. rewrite Hp.
    match goal with |- context [GitHub.mapA f xs ?s] => destruct (IH s) as [ps [w' [Hps Hlen]]] end.
    rewrite Hps. simpl. exists (p :: ps), w'. unfold GitHub.ret. simpl.
    rewrite <- app_assoc. simpl. split; [reflexivity | lia].
Qed.

Lemma promiseAll_cases {A : Type} (ps : list (Promise A)) (st : GitHub.State W) :
  (exists e lg, GitHub.promiseAll ps st
                = (inl e, GitHub.mkState (GitHub.world st) (GitHub.this st) (GitHub.trace st) lg)
                /\ exists p, In p ps /\ outcome p = inl e)
  \/ (exists lg, GitHub.promiseAll ps st
                 = (inr (fulfilledValues ps),
                    GitHub.mkState (GitHub.world st) (GitHub.this st) (GitHub.trace st) lg)
                 /\ Forall (fun p => exists a, outcome p = inr a) ps).
Proof.
  unfold GitHub.promiseAll.
  destruct (firstRejection (map settlement ps)) as [[t e]|] eqn:Hfr.
  - left. exists e. eexists. split; [reflexivity|].
    apply firstRejection_some in Hfr. eapply settlement_rejected; eauto.
  - right. eexists. split; [reflexivity|].
    apply settlement_fulfilled. apply firstRejection_none. exact Hfr.
Qed.

Lemma setup_run (st : GitHub.State W) :
  (exists e w lg,
      GitHub.setup self MessageUtil logs st
      = (inl e, GitHub.mkState w (GitHub.this st)
                  (GitHub.trace st ++ [mkEvent GetLatestCommitSha (inl e)]) lg))
  \/ (exists sha e w lg,
      GitHub.setup self MessageUtil logs st
      = (inl e, GitHub.mkState w
                  (GitHub.mkFields sha (GitHub.touchedDiff (GitHub.this st))
                     (GitHub.comments (GitHub.this st)) (GitHub.nWarning (GitHub.this st))
                     (GitHub.nError (GitHub.this st)))
                  (GitHub.trace st
                   ++ [ok GetLatestCommitSha (RSha sha); mkEvent GetDiff (inl e)]) lg))
  \/ (exists sha d w lg,
      GitHub.setup self MessageUtil logs st
      = (inr tt, GitHub.mkState w (fieldsAfterSetup sha d)
                   (GitHub.trace st ++ setupEvents sha d) lg)).
Proof.
  unfold GitHub.setup, GitHub.bind, GitHub.invoke, GitHub.await, GitHub.setThis, GitHub.write.
  destruct (IGitHubPRService.getLatestCommitSha (GitHub.prService self) (GitHub.world st))
    as [[t1 [e|sha]] w1]; simpl.
  - left. exists e, w1. eexists. reflexivity.
  - destruct (IGitHubPRService.diff (GitHub.prService self) w1) as [[t2 [e|d]] w2]; simpl.
    + right; left. exists sha, e, w2. eexists. rewrite <- app_assoc. reflexivity.
    + right; right. exists sha, d, w2. eexists. rewrite <- app_assoc. reflexivity.
Qed.

Lemma promiseAll3_cases {A B C : Type} (p1 : Promise A) (p2 : Promise B) (p3 : Promise C)
    (st : GitHub.State W) :
  (exists e, GitHub.promiseAll3 p1 p2 p3 st = (inl e, st)
             /\ (outcome p1 = inl e \/ outcome p2 = inl e \/ outcome p3 = inl e))
  \/ (exists a b c, GitHub.promiseAll3 p1 p2 p3 st = (inr (a, b, c), st)
                    /\ outcome p1 = inr a /\ outcome p2 = inr b /\ outcome p3 = inr c).
Proof.
  unfold GitHub.promiseAll3.
  destruct (firstRejection [settlement p1; settlement p2; settlement p3]) as [[t e]|] eqn:Hfr.
  - left. exists e. split; [reflexivity|].
    apply firstRejection_some in Hfr. unfold settlement in Hfr. simpl in Hfr.
    destruct Hfr as [H|[H|[H|[]]]]; inversion H as [[Ht Hr]];
      apply rejection_some in Hr; auto.
  - right. apply firstRejection_none in Hfr.
    inversion Hfr as [|? ? H1 Hfr1]; subst. inversion Hfr1 as [|? ? H2 Hfr2]; subst.
    inversion Hfr2 as [|? ? H3 _]; subst.
    unfold settlement in H1, H2, H3. simpl in H1, H2, H3.
    destruct (outcome p1) as [e1|a]; [discriminate|].
    destruct (outcome p2) as [e2|b]; [discriminate|].
    destruct (outcome p3) as [e3|c]; [discriminate|].
    exists a, b, c. auto.
Qed.

Lemma invoke_issues {A : Type} (c : Call) (method : W -> IGitHubPRService.Reply A * W)
    (st : GitHub.State W) :
  exists p w,
    GitHub.invoke c (fun _ => RDone) method st
    = (inr p, GitHub.mkState w (GitHub.this st)
                (GitHub.trace st ++ [mkEvent c (unitResult (outcome p))])
                (GitHub.logged st)).
Proof.
  unfold GitHub.invoke. destruct (method (GitHub.world st)) as [[t r] w].
  exists (mkPromise t r []), w. reflexivity.
Qed.

Lemma removeExistingComments_run (st : GitHub.State W) :
  cleanupOutcome st (GitHub.removeExistingComments self st).
Proof.
  unfold GitHub.removeExistingComments.
  unfold GitHub.bind at 1. unfold GitHub.invoke at 1.
  destruct (IGitHubPRService.getCurrentUserId (GitHub.prService self) (GitHub.world st))
    as [[t1 r1] w1]; simpl.
  unfold GitHub.bind at 1. unfold GitHub.invoke at 1. simpl.
  destruct (IGitHubPRService.listAllComments (GitHub.prService self) w1)
    as [[t2 r2] w2]; simpl.
  unfold GitHub.bind at 1. unfold GitHub.invoke at 1. simpl.
  destruct (IGitHubPRService.listAllReviewComments (GitHub.prService self) w2)
    as [[t3 r3] w3]; simpl.
  unfold GitHub.bind at 1.
  match goal with |- context [GitHub.promiseAll3 ?a ?b ?c ?s] =>
    destruct (promiseAll3_cases a b c s) as [[e [Heq Hor]] | [uid [cs [rs [Heq [H1 [H2 H3]]]]]]];
    rewrite Heq; clear Heq
  end; simpl in *; repeat rewrite <- app_assoc; simpl.
  - left. exists e, w3. eexists. eexists. split; [reflexivity|]. split; [reflexivity|].
    unfold rejects. destruct Hor as [H|[H|H]]; subst.
    + eexists. split; [left; reflexivity | reflexivity].
    + eexists. split; [right; left; reflexivity | reflexivity].
    + eexists. split; [right; right; left; reflexivity | reflexivity].
  - subst r1 r2 r3.
    unfold GitHub.bind at 1. unfold GitHub.write at 1. simpl.
    unfold GitHub.bind at 1.
    match goal with |- context [GitHub.mapA ?f ?xs ?s] =>
      destruct (mapA_issues f (fun _ c => DeleteComment (comment_id c))
                  (fun x s' => invoke_issues _ _ s') xs s) as [ps1 [w4 [Heq Hlen1]]];
      rewrite Heq; clear Heq
    end; simpl.
    unfold GitHub.bind at 1.
    match goal with |- context [GitHub.mapA ?f ?xs ?s] =>
      destruct (mapA_issues f (fun _ r => DeleteReviewComment (review_id r))
                  (fun x s' => invoke_issues _ _ s') xs s) as [ps2 [w5 [Heq Hlen2]]];
      rewrite Heq; clear Heq
    end; simpl.
    repeat rewrite <- app_assoc; simpl.
    rewrite <- batchEvents_app by (rewrite length_map; exact Hlen1).
    assert (Hlen : length (ps1 ++ ps2) = length (deleteCalls uid cs rs)).
    { unfold deleteCalls. rewrite !length_app, !length_map. lia. }
    fold (deleteCalls uid cs rs).
    unfold GitHub.bind at 1.
    match goal with |- context [GitHub.promiseAll ?ps ?s] =>
      destruct (promiseAll_cases ps s) as [[e [lg [Heq [p [Hin He]]]]] | [lg [Heq Hall]]];
      rewrite Heq; clear Heq
    end; simpl.
    + right; left. exists e, w5, lg, uid, cs, rs. eexists.
      split; [reflexivity|]. split.
      * apply batchEvents_calls. exact Hlen.
      * eapply batchEvents_rejected; eauto.
    + right; right. exists w5. eexists. exists uid, cs, rs.
      unfold GitHub.write. simpl.
      rewrite (batchEvents_done _ Hlen Hall). reflexivity.
Qed.

Lemma createReviewComment_issues (comment : Comment) (st : GitHub.State W) :
  exists p w,
    GitHub.createReviewComment self comment st
    = (inr p, GitHub.mkState w (GitHub.this st)
                (GitHub.trace st
                 ++ [mkEvent (postCall (GitHub.commitId (GitHub.this st)) comment)
                       (unitResult (outcome p))])
                (GitHub.logged st)).
Proof.
  unfold GitHub.createReviewComment, GitHub.bind, GitHub.getThis, GitHub.invoke, GitHub.ret.
  destruct (IGitHubPRService.createReviewComment (GitHub.prService self)
              (GitHub.commitId (GitHub.this st)) (text comment) (file comment)
              (cline comment) (GitHub.world st)) as [[t r] w]; simpl.
  eexists. exists w. f_equal. f_equal. f_equal. f_equal.
  unfold andThen, postCall. simpl. destruct r; reflexivity.
Qed.

Lemma createSummaryComment_run (st : GitHub.State W) :
  summaryOutcome st (GitHub.createSummaryComment self MessageUtil st).
Proof.
  unfold summaryOutcome, GitHub.createSummaryComment.
  unfold GitHub.bind, GitHub.getThis. cbv beta iota zeta.
  destruct (0 <? GitHub.nWarning (GitHub.this st) + GitHub.nError (GitHub.this st)) eqn:Hpos.
  - unfold GitHub.invoke, GitHub.await, GitHub.write.
    destruct (IGitHubPRService.createComment (GitHub.prService self) _ (GitHub.world st))
      as [[t [e|[]]] w]; simpl.
    + right; left. exists e, w. eexists. split; reflexivity.
    + right; right. exists w. eexists. split; reflexivity.
  - left. unfold GitHub.write. eexists. split; reflexivity.
Qed.

Lemma setCommitStatus_run (st : GitHub.State W) :
  statusOutcome st (GitHub.setCommitStatus self MessageUtil st).
Proof.
  unfold statusOutcome, GitHub.setCommitStatus.
  unfold GitHub.bind, GitHub.getThis, GitHub.invoke, GitHub.await.
  destruct (IGitHubPRService.setCommitStatus (GitHub.prService self) _ _ _ (GitHub.world st))
    as [[t [e|[]]] w]; simpl.
  - left. exists e, w. eexists. reflexivity.
  - right. exists w. eexists. reflexivity.
Qed.

(** ** The whole run *)

Lemma cleanStep_run (st : GitHub.State W) :
  (exists e w lg seg,
      cleanStep st = (inl e, GitHub.mkState w (GitHub.this st) (GitHub.trace st ++ seg) lg)
      /\ GitHub.removeOldComment self = true
      /\ map ev_call seg = listingCalls /\ rejects e seg)
  \/ (exists e w lg uid cs rs seg,
      cleanStep st = (inl e, GitHub.mkState w (GitHub.this st)
                              (GitHub.trace st ++ listingEvents uid cs rs ++ seg) lg)
      /\ GitHub.removeOldComment self = true
      /\ map ev_call seg = deleteCalls uid cs rs /\ rejects e seg)
  \/ (exists w lg clean,
      cleanStep st = (inr tt, GitHub.mkState w (GitHub.this st) (GitHub.trace st ++ clean) lg)
      /\ Cleaned clean).
Proof.
  unfold cleanStep. destruct (GitHub.removeOldComment self) eqn:Hrm.
  - destruct (removeExistingComments_run st)
      as [[e [w [lg [seg [Heq [Hc Hr]]]]]]
         | [[e [w [lg [uid [cs [rs [seg [Heq [Hc Hr]]]]]]]]]
           | [w [lg [uid [cs [rs Heq]]]]]]]; rewrite Heq.
    + left. exists e, w, lg, seg. auto.
    + right; left. exists e, w, lg, uid, cs, rs, seg. auto.
    + right; right. exists w, lg. eexists. split; [reflexivity|].
      apply cleaned_removed. exact Hrm.
  - right; right. exists (GitHub.world st), (GitHub.logged st), [].
    unfold GitHub.ret. rewrite app_nil_r. destruct st; simpl. split; [reflexivity|].
    apply cleaned_skipped. exact Hrm.
Qed.

Lemma shape_cast f0 r tr tr' f :
  Shape f0 r tr f -> tr = tr' -> Shape f0 r tr' f.
Proof. intros H <-. exact H. Qed.

Ltac settle Hrun :=
  unfold GitHub.bind, GitHub.write, GitHub.throw, GitHub.ret in Hrun; simpl in Hrun;
  inversion Hrun; subst; simpl.

Lemma run_shape (w : W) (f0 : GitHub.Fields) (r : Error + bool) (st' : GitHub.State W) :
  GitHub.run self MessageUtil logs w f0 = (r, st') ->
  Shape f0 r (GitHub.trace st') (GitHub.this st').
Proof.
  unfold GitHub.run, GitHub.report. intros Hrun.
  unfold GitHub.bind at 1 in Hrun. unfold GitHub.tryCatch in Hrun.
  unfold GitHub.bind at 1 in Hrun.
  match type of Hrun with context [GitHub.setup _ _ _ ?s] =>
    destruct (setup_run s) as [[e [w1 [lg Heq]]] | [[sha [e [w1 [lg Heq]]]]
                                                  | [sha [d [w1 [lg Heq]]]]]];
    rewrite Heq in Hrun; clear Heq; simpl in Hrun
  end.
  - settle Hrun. constructor.
  - settle Hrun. constructor.
  - fold cleanStep in Hrun. unfold GitHub.bind at 1 in Hrun.
    match type of Hrun with context [cleanStep ?s] =>
      destruct (cleanStep_run s)
        as [[e [w2 [lg2 [seg [Heq [Hrm [Hc Hr]]]]]]]
           | [[e [w2 [lg2 [uid [cs [rs [seg [Heq [Hrm [Hc Hr]]]]]]]]]]
             | [w2 [lg2 [clean [Heq Hclean]]]]]];
      rewrite Heq in Hrun; clear Heq; simpl in Hrun
    end.
    + settle Hrun. apply shape_listing_rejected; assumption.
    + settle Hrun. apply shape_delete_rejected; assumption.
    + unfold GitHub.bind at 1 in Hrun. unfold GitHub.getThis at 1 in Hrun.
      unfold GitHub.bind at 1 in Hrun.
      match type of Hrun with context [GitHub.mapA ?f ?xs ?s] =>
        destruct (mapA_issues f (fun fl c => postCall (GitHub.commitId fl) c)
                    createReviewComment_issues xs s) as [ps [w3 [Heq Hlen]]];
        rewrite Heq in Hrun; clear Heq; simpl in Hrun
      end.
      fold (postCalls sha d) in Hrun.
      assert (Hlen' : length ps = length (postCalls sha d)).
      { unfold postCalls. rewrite length_map. exact Hlen. }
      unfold GitHub.bind at 1 in Hrun.
      match type of Hrun with context [GitHub.promiseAll ?ps ?s] =>
        destruct (promiseAll_cases ps s) as [[e [lg3 [Heq [p [Hin He]]]]] | [lg3 [Heq Hall]]];
        rewrite Heq in Hrun; clear Heq; simpl in Hrun
      end.
      * settle Hrun. apply shape_post_rejected.
        -- assumption.
        -- apply batchEvents_calls. exact Hlen'.
        -- eapply batchEvents_rejected; eauto.
      * change (map (fun c : Comment => postCall sha c) (commentsOf d))
          with (postCalls sha d) in Hrun.
        rewrite (batchEvents_done _ Hlen' Hall) in Hrun.
        unfold GitHub.bind at 1 in Hrun.
        match type of Hrun with context [GitHub.createSummaryComment _ _ ?s] =>
          destruct (createSummaryComment_run s)
            as [[lg4 [Hpos Heq]] | [[e [w4 [lg4 [Hpos Heq]]]] | [w4 [lg4 [Hpos Heq]]]]];
          simpl in Hpos, Heq; rewrite Heq in Hrun; clear Heq; simpl in Hrun
        end.
        -- unfold GitHub.bind at 1 in Hrun.
           match type of Hrun with context [GitHub.setCommitStatus _ _ ?s] =>
             destruct (setCommitStatus_run s) as [[e [w5 [lg5 Heq]]] | [w5 [lg5 Heq]]];
             simpl in Heq; rewrite Heq in Hrun; clear Heq; simpl in Hrun
           end.
           ++ settle Hrun.
              eapply shape_cast; [apply (shape_status_rejected f0 sha d e Hclean)|].
              unfold summaryCalls. rewrite Hpos. simpl.
              repeat rewrite <- app_assoc. reflexivity.
           ++ settle Hrun.
              eapply shape_cast; [apply (shape_completed f0 sha d Hclean)|].
              unfold summaryCalls. rewrite Hpos. simpl.
              repeat rewrite <- app_assoc. reflexivity.
        -- settle Hrun.
           eapply shape_cast; [apply (shape_summary_rejected f0 sha d e Hclean Hpos)|].
           simpl. repeat rewrite <- app_assoc. reflexivity.
        -- unfold GitHub.bind at 1 in Hrun.
           match type of Hrun with context [GitHub.setCommitStatus _ _ ?s] =>
             destruct (setCommitStatus_run s) as [[e [w5 [lg5 Heq]]] | [w5 [lg5 Heq]]];
             simpl in Heq; rewrite Heq in Hrun; clear Heq; simpl in Hrun
           end.
           ++ settle Hrun.
              eapply shape_cast; [apply (shape_status_rejected f0 sha d e Hclean)|].
              unfold summaryCalls. rewrite Hpos. simpl.
              repeat rewrite <- app_assoc. reflexivity.
           ++ settle Hrun.
              eapply shape_cast; [apply (shape_completed f0 sha d Hclean)|].
              unfold summaryCalls. rewrite Hpos. simpl.
              repeat rewrite <- app_assoc. reflexivity.
Qed.

(** ** Sifting a trace by stage *)

Lemma eventsWhere_app (p : Call -> bool) (a b : list Event) :
  eventsWhere p (a ++ b) = eventsWhere p a ++ eventsWhere p b.
Proof. apply filter_app. Qed.

Lemma eventsWhere_cons (p : Call -> bool) (ev : Event) (tr : list Event) :
  eventsWhere p (ev :: tr) = (if p (ev_call ev) then [ev] else []) ++ eventsWhere p tr.
Proof. unfold eventsWhere. simpl. destruct (p (ev_call ev)); reflexivity. Qed.

Lemma eventsWhere_uniform (q : nat -> bool) (k : nat) (seg : list Event) :
  uniform k seg -> eventsWhere (atStage q) seg = if q k then seg else [].
Proof.
  unfold uniform, eventsWhere, atStage. induction 1 as [|ev seg Hev _ IH]; simpl.
  - destruct (q k); reflexivity.
  - rewrite Hev, IH. destruct (q k); reflexivity.
Qed.

Lemma done_calls (calls : list Call) : map ev_call (done calls) = calls.
Proof.
  unfold done. rewrite map_map. simpl. apply map_id.
Qed.

Lemma uniform_batch (k : nat) (seg : list Event) (calls : list Call) :
  map ev_call seg = calls -> Forall (fun c => stage c = k) calls -> uniform k seg.
Proof.
  intros <- H. unfold uniform. rewrite Forall_map in H. exact H.
Qed.

Lemma uniform_done (k : nat) (calls : list Call) :
  Forall (fun c => stage c = k) calls -> uniform k (done calls).
Proof. intros H. eapply uniform_batch; [apply done_calls | exact H]. Qed.

Lemma listingCalls_stage : Forall (fun c => stage c = 2%nat) listingCalls.
Proof. repeat constructor. Qed.

Lemma deleteCalls_stage uid cs rs : Forall (fun c => stage c = 3%nat) (deleteCalls uid cs rs).
Proof.
  unfold deleteCalls. apply Forall_app. split; apply Forall_map, Forall_forall; reflexivity.
Qed.

Lemma postCalls_stage sha d : Forall (fun c => stage c = 4%nat) (postCalls sha d).
Proof. unfold postCalls. apply Forall_map, Forall_forall. reflexivity. Qed.

Lemma summaryCalls_stage d : Forall (fun c => stage c = 5%nat) (summaryCalls d).
Proof. unfold summaryCalls. destruct (0 <? _); repeat constructor. Qed.

(** ** Fulfilled and rejected events *)

Lemma done_fulfilled (calls : list Call) :
  Forall (fun ev => fulfilled ev = true) (done calls).
Proof. unfold done. apply Forall_map, Forall_forall. reflexivity. Qed.

Lemma cleaned_fulfilled (clean : list Event) :
  Cleaned clean -> Forall (fun ev => fulfilled ev = true) clean.
Proof.
  intros [Hrm | uid cs rs Hrm].
  - constructor.
  - apply Forall_app. split; [repeat constructor | apply done_fulfilled].
Qed.

Lemma rejects_unfulfilled (e : Error) (seg : list Event) :
  rejects e seg -> exists ev, In ev seg /\ fulfilled ev = false.
Proof.
  intros [ev [Hin He]]. exists ev. split; [exact Hin|]. unfold fulfilled. rewrite He. reflexivity.
Qed.

Lemma rejects_app_r (e : Error) (a b : list Event) :
  rejects e b -> rejects e (a ++ b).
Proof.
  intros [ev [Hin He]]. exists ev. split; [apply in_or_app; right; exact Hin | exact He].
Qed.

(** ** Totals *)

Lemma totalErrors_count (d : list Diff) : totalErrors d = errorCount d.
Proof. apply sumOf_errors. Qed.

Lemma totalWarnings_count (d : list Diff) : totalWarnings d = warningCount d.
Proof. apply sumOf_warnings. Qed.

(** ** The order of the stages *)

Lemma sorted_app (l1 l2 : list Event) :
  StronglySorted before l1 -> StronglySorted before l2 ->
  (forall a b, In a l1 -> In b l2 -> before a b) ->
  StronglySorted before (l1 ++ l2).
Proof.
  induction 1 as [|a l Hl IH Ha]; intros H2 Hcross; simpl.
  - exact H2.
  - constructor.
    + apply IH; [exact H2|]. intros x y Hx Hy. apply Hcross; [right; exact Hx | exact Hy].
    + apply Forall_app. split; [exact Ha|].
      apply Forall_forall. intros y Hy. apply Hcross; [left; reflexivity | exact Hy].
Qed.

Lemma uniform_sorted (k : nat) (seg : list Event) :
  uniform k seg -> StronglySorted before seg.
Proof.
  unfold uniform. induction 1 as [|a l Ha Hl IH]; constructor.
  - exact IH.
  - apply Forall_forall. intros b Hb.
    rewrite Forall_forall in Hl. specialize (Hl b Hb).
    unfold before. rewrite Ha, Hl. split; [lia | intros; lia].
Qed.

Lemma ordered_last (j : nat) (tr seg : list Event) :
  settledBelow j tr -> uniform j seg -> StronglySorted before (tr ++ seg).
Proof.
  intros [Hs Hb] Hu. apply sorted_app; [exact Hs | eapply uniform_sorted; exact Hu |].
  intros a b Ha Hb'. rewrite Forall_forall in Hb. destruct (Hb a Ha) as [Hlt Hf].
  unfold uniform in Hu. rewrite Forall_forall in Hu. specialize (Hu b Hb').
  unfold before. rewrite Hu. split; [lia | intros _; exact Hf].
Qed.

Lemma settledBelow_app (j k : nat) (tr seg : list Event) :
  settledBelow j tr -> uniform j seg -> Forall (fun ev => fulfilled ev = true) seg ->
  (j < k)%nat -> settledBelow k (tr ++ seg).
Proof.
  intros Htr Hu Hf Hjk. split.
  - eapply ordered_last; eauto.
  - destruct Htr as [_ Hb]. apply Forall_app. split.
    + eapply Forall_impl; [|exact Hb]. simpl. intros ev [Hlt Hev]. split; [lia | exact Hev].
    + unfold uniform in Hu. rewrite Forall_forall in *. intros ev Hev.
      rewrite (Hu ev Hev). split; [exact Hjk | apply Hf; exact Hev].
Qed.

Lemma settledBelow_weaken (j k : nat) (tr : list Event) :
  settledBelow j tr -> (j <= k)%nat -> settledBelow k tr.
Proof.
  intros [Hs Hb] Hjk. split; [exact Hs|].
  eapply Forall_impl; [|exact Hb]. simpl. intros ev [Hlt Hev]. split; [lia | exact Hev].
Qed.

Lemma setup_settled (sha : string) (d : list Diff) :
  settledBelow 2 (setupEvents sha d).
Proof.
  change (setupEvents sha d)
    with (([] ++ [ok GetLatestCommitSha (RSha sha)]) ++ [ok GetDiff (RDiff d)]).
  apply settledBelow_app with (j := 1%nat); [|repeat constructor..|lia].
  apply settledBelow_app with (j := 0%nat); [|repeat constructor..|lia].
  split; constructor.
Qed.

Lemma cleaned_settled (sha : string) (d : list Diff) (clean : list Event) :
  Cleaned clean -> settledBelow 4 (setupEvents sha d ++ clean).
Proof.
  intros [Hrm | uid cs rs Hrm].
  - rewrite app_nil_r. eapply settledBelow_weaken; [apply setup_settled | lia].
  - rewrite app_assoc.
    apply settledBelow_app with (j := 3%nat);
      [| apply uniform_done, deleteCalls_stage | apply done_fulfilled | lia].
    apply settledBelow_app with (j := 2%nat); [apply setup_settled | | | lia];
      repeat constructor.
Qed.

Lemma posted_settled (sha : string) (d : list Diff) (clean : list Event) :
  Cleaned clean -> settledBelow 5 (setupEvents sha d ++ clean ++ done (postCalls sha d)).
Proof.
  intros Hc. rewrite app_assoc.
  apply settledBelow_app with (j := 4%nat);
    [apply cleaned_settled; exact Hc | apply uniform_done, postCalls_stage
    | apply done_fulfilled | lia].
Qed.

Lemma summarised_settled (sha : string) (d : list Diff) (clean : list Event) :
  Cleaned clean ->
  settledBelow 6 (setupEvents sha d ++ clean ++ done (postCalls sha d)
                  ++ done (summaryCalls d)).
Proof.
  intros Hc.
  replace (setupEvents sha d ++ clean ++ done (postCalls sha d) ++ done (summaryCalls d))
    with ((setupEvents sha d ++ clean ++ done (postCalls sha d)) ++ done (summaryCalls d))
    by (repeat rewrite <- app_assoc; reflexivity).
  apply settledBelow_app with (j := 5%nat);
    [apply posted_settled; exact Hc | apply uniform_done, summaryCalls_stage
    | apply done_fulfilled | lia].
Qed.

Lemma shape_ordered f0 r tr f :
  Shape f0 r tr f -> StronglySorted before tr.
Proof.
  intros [e | sha e | sha d seg e Hrm Hc Hr | sha d uid cs rs seg e Hrm Hc Hr
         | sha d clean seg e Hcl Hc Hr | sha d clean e Hcl Hpos
         | sha d clean e Hcl | sha d clean Hcl].
  - repeat constructor.
  - change [ok GetLatestCommitSha (RSha sha); mkEvent GetDiff (inl e)]
      with (([] ++ [ok GetLatestCommitSha (RSha sha)]) ++ [mkEvent GetDiff (inl e)]).
    apply ordered_last with (j := 1%nat); [|repeat constructor].
    apply settledBelow_app with (j := 0%nat); [split; constructor | repeat constructor.. | lia].
  - apply ordered_last with (j := 2%nat); [apply setup_settled|].
    eapply uniform_batch; [exact Hc | apply listingCalls_stage].
  - rewrite app_assoc. apply ordered_last with (j := 3%nat).
    + apply settledBelow_app with (j := 2%nat); [apply setup_settled | | | lia];
        repeat constructor.
    + eapply uniform_batch; [exact Hc | apply deleteCalls_stage].
  - rewrite app_assoc. apply ordered_last with (j := 4%nat).
    + apply cleaned_settled; exact Hcl.
    + eapply uniform_batch; [exact Hc | apply postCalls_stage].
  - replace (setupEvents sha d ++ clean ++ done (postCalls sha d)
             ++ [mkEvent (CreateComment (generateOverviewMessage MessageUtil
                                           (totalErrors d) (totalWarnings d))) (inl e)])
      with ((setupEvents sha d ++ clean ++ done (postCalls sha d))
            ++ [mkEvent (CreateComment (generateOverviewMessage MessageUtil
                                          (totalErrors d) (totalWarnings d))) (inl e)])
      by (repeat rewrite <- app_assoc; reflexivity).
    apply ordered_last with (j := 5%nat); [apply posted_settled; exact Hcl|].
    repeat constructor.
  - replace (setupEvents sha d ++ clean ++ done (postCalls sha d) ++ done (summaryCalls d)
             ++ [mkEvent (statusCall sha d) (inl e)])
      with ((setupEvents sha d ++ clean ++ done (postCalls sha d) ++ done (summaryCalls d))
            ++ [mkEvent (statusCall sha d) (inl e)])
      by (repeat rewrite <- app_assoc; reflexivity).
    apply ordered_last with (j := 6%nat); [apply summarised_settled; exact Hcl|].
    repeat constructor.
  - replace (setupEvents sha d ++ clean ++ done (postCalls sha d) ++ done (summaryCalls d)
             ++ [ok (statusCall sha d) RDone])
      with ((setupEvents sha d ++ clean ++ done (postCalls sha d) ++ done (summaryCalls d))
            ++ [ok (statusCall sha d) RDone])
      by (repeat rewrite <- app_assoc; reflexivity).
    apply ordered_last with (j := 6%nat); [apply summarised_settled; exact Hcl|].
    repeat constructor.
Qed.

(** ** Rejections *)

Lemma shape_rejects f0 e tr f :
  Shape f0 (inl e) tr f -> rejects e tr.
Proof.
  intros H.
  inversion H as [e0 | sha e0 | sha d seg e0 Hrm Hc Hr | sha d uid cs rs seg e0 Hrm Hc Hr
                 | sha d clean seg e0 Hcl Hc Hr | sha d clean e0 Hcl Hpos
                 | sha d clean e0 Hcl | ]; subst.
  - eexists. split; [left; reflexivity | reflexivity].
  - eexists. split; [right; left; reflexivity | reflexivity].
  - apply rejects_app_r. exact Hr.
  - do 2 apply rejects_app_r. exact Hr.
  - do 2 apply rejects_app_r. exact Hr.
  - do 3 apply rejects_app_r. eexists. split; [left; reflexivity | reflexivity].
  - do 4 apply rejects_app_r. eexists. split; [left; reflexivity | reflexivity].
Qed.

Lemma shape_completed_fulfilled f0 b tr f :
  Shape f0 (inr b) tr f -> b = true /\ Forall (fun ev => fulfilled ev = true) tr.
Proof.
  intros H. inversion H as [| | | | | | | sha d clean Hcl]; subst.
  split; [reflexivity|].
  repeat (apply Forall_app; split);
    first [ apply done_fulfilled | apply cleaned_fulfilled; assumption | repeat constructor ].
Qed.

Lemma run_logs_error (w : W) (f0 : GitHub.Fields) (e : Error) (st' : GitHub.State W) :
  GitHub.run self MessageUtil logs w f0 = (inl e, st') ->
  exists lg, GitHub.logged st' = lg ++ [LogError "GitHub report failed" e].
Proof.
  unfold GitHub.run, GitHub.report. unfold GitHub.bind at 1. unfold GitHub.tryCatch.
  match goal with
  | |- context [GitHub.bind (GitHub.setup self MessageUtil logs) ?k ?s] =>
      destruct (GitHub.bind (GitHub.setup self MessageUtil logs) k s) as [[e'|a] st1]
  end.
  - unfold GitHub.bind, GitHub.write, GitHub.throw. simpl. intros H. inversion H; subst.
    simpl. eexists. reflexivity.
  - unfold GitHub.ret. discriminate.
Qed.

Lemma sorted_pair (l1 l2 l3 : list Event) (a b : Event) :
  StronglySorted before (l1 ++ a :: l2 ++ b :: l3) -> before a b.
Proof.
  induction l1 as [|x l1 IH]; simpl; intros H.
  - apply StronglySorted_inv in H. destruct H as [_ H].
    rewrite Forall_forall in H. apply H. apply in_or_app. right. left. reflexivity.
  - apply StronglySorted_inv in H. apply IH. apply H.
Qed.

Lemma rejected_in_last_stage (tr : list Event) (a : Event) :
  StronglySorted before tr -> In a tr -> fulfilled a = false ->
  forall b, In b tr -> (stage (ev_call b) <= stage (ev_call a))%nat.
Proof.
  induction 1 as [|x l Hl IH Hx]; intros Ha Hf b Hb; [contradiction|].
  rewrite Forall_forall in Hx.
  destruct Ha as [->|Ha]; destruct Hb as [->|Hb].
  - lia.
  - destruct (Hx b Hb) as [Hle Hlt].
    destruct (Nat.eq_dec (stage (ev_call a)) (stage (ev_call b))) as [Heq|Hne]; [lia|].
    assert (Hfa : fulfilled a = true) by (apply Hlt; lia). congruence.
  - destruct (Hx a Ha) as [Hle _]. exact Hle.
  - apply IH; assumption.
Qed.

Lemma phase_stage (a b : Call) :
  ((stage a <= stage b)%nat -> (phase a <= phase b)%nat)
  /\ ((phase a < phase b)%nat -> (stage a < stage b)%nat).
Proof.
  destruct a, b; simpl; split; lia.
Qed.

(** ** Counting deletions *)

Lemma count_selected {A : Type} (key : A -> Z) (sel : A -> bool) (xs : list A) (x : A) :
  NoDup (map key xs) -> In x xs ->
  length (filter (fun y => Z.eqb (key y) (key x)) (filter sel xs))
  = if sel x then 1%nat else 0%nat.
Proof.
  induction xs as [|y xs IH]; simpl; intros Hnd Hin; [contradiction|].
  inversion Hnd as [|? ? Hnotin Hnd']; subst.
  assert (Hzero : forall z, ~ In (key z) (map key xs) ->
                            length (filter (fun y => Z.eqb (key y) (key z)) (filter sel xs))
                            = 0%nat).
  { clear. intros z Hz. induction xs as [|a xs IH]; simpl; [reflexivity|].
    simpl in Hz. destruct (sel a); simpl.
    - destruct (Z.eqb_spec (key a) (key z)) as [Heq|Hne]; [exfalso; apply Hz; left; exact Heq|].
      apply IH. intros H. apply Hz. right. exact H.
    - apply IH. intros H. apply Hz. right. exact H. }
  destruct Hin as [->|Hin].
  - destruct (sel x); simpl.
    + rewrite Z.eqb_refl. simpl. rewrite Hzero by exact Hnotin. reflexivity.
    + apply Hzero. exact Hnotin.
  - assert (Hne : key y <> key x).
    { intros Heq. apply Hnotin. rewrite Heq. apply in_map. exact Hin. }
    destruct (sel y); simpl.
    + destruct (Z.eqb_spec (key y) (key x)) as [Heq|_]; [contradiction|].
      apply IH; assumption.
    + apply IH; assumption.
Qed.

Lemma filter_map_swap {A B : Type} (f : A -> B) (p : B -> bool) (xs : list A) :
  filter p (map f xs) = map f (filter (fun x => p (f x)) xs).
Proof.
  induction xs as [|x xs IH]; simpl; [reflexivity|].
  destruct (p (f x)); simpl; rewrite IH; reflexivity.
Qed.

Lemma filter_none {A : Type} (p : A -> bool) (xs : list A) :
  (forall x, In x xs -> p x = false) -> filter p xs = [].
Proof.
  induction xs as [|x xs IH]; simpl; intros H; [reflexivity|].
  rewrite (H x) by (left; reflexivity). apply IH. intros y Hy. apply H. right. exact Hy.
Qed.

Lemma commentDeletions_calls (id : Z) (tr : list Event) :
  commentDeletions id tr
  = length (filter (fun c => match c with
                             | DeleteComment i => Z.eqb i id
                             | _ => false
                             end) (callsWhere isDelete tr)).
Proof.
  unfold commentDeletions, callsWhere, eventsWhere.
  induction tr as [|ev tr IH]; simpl; [reflexivity|].
  destruct ev as [c res]; destruct c; simpl; try exact IH.
  destruct (Z.eqb id0 id); simpl; rewrite IH; reflexivity.
Qed.

Lemma reviewDeletions_calls (id : Z) (tr : list Event) :
  reviewDeletions id tr
  = length (filter (fun c => match c with
                             | DeleteReviewComment i => Z.eqb i id
                             | _ => false
                             end) (callsWhere isDelete tr)).
Proof.
  unfold reviewDeletions, callsWhere, eventsWhere.
  induction tr as [|ev tr IH]; simpl; [reflexivity|].
  destruct ev as [c res]; destruct c; simpl; try exact IH.
  destruct (Z.eqb id0 id); simpl; rewrite IH; reflexivity.
Qed.

Lemma deleteCalls_comment_count uid cs rs (c : IssueComment) :
  NoDup (map comment_id cs) -> In c cs ->
  length (filter (fun k => match k with
                           | DeleteComment i => Z.eqb i (comment_id c)
                           | _ => false
                           end) (deleteCalls uid cs rs))
  = if GitHub.authoredBy uid (comment_user c) then 1%nat else 0%nat.
Proof.
  intros Hnd Hin. unfold deleteCalls. rewrite filter_app, length_app.
  rewrite !filter_map_swap, !length_map.
  rewrite (filter_none _ (filter (fun r => GitHub.authoredBy uid (review_user r)) rs))
    by reflexivity.
  simpl. rewrite Nat.add_0_r.
  apply (count_selected comment_id (fun c => GitHub.authoredBy uid (comment_user c)));
    assumption.
Qed.

Lemma deleteCalls_review_count uid cs rs (x : ReviewComment) :
  NoDup (map review_id rs) -> In x rs ->
  length (filter (fun k => match k with
                           | DeleteReviewComment i => Z.eqb i (review_id x)
                           | _ => false
                           end) (deleteCalls uid cs rs))
  = if GitHub.authoredBy uid (review_user x) then 1%nat else 0%nat.
Proof.
  intros Hnd Hin. unfold deleteCalls. rewrite filter_app, length_app.
  rewrite !filter_map_swap, !length_map.
  rewrite (filter_none _ (filter (fun c => GitHub.authoredBy uid (comment_user c)) cs))
    by reflexivity.
  simpl.
  apply (count_selected review_id (fun r => GitHub.authoredBy uid (review_user r)));
    assumption.
Qed.

(** ** The filter predicates *)

Lemma LogSeverity_eqb_eq (a b : LogSeverity) :
  LogSeverity_eqb a b = true <-> a = b.
Proof.
  destruct a, b; simpl; split; intros H; try reflexivity; try discriminate.
  - apply String.eqb_eq in H. subst. reflexivity.
  - inversion H; subst. apply String.eqb_refl.
Qed.

Lemma onlySeverity_spec (log : LogType) :
  FilterUtil.onlySeverity [error; warning] log = true
  <-> severity log = error \/ severity log = warning.
Proof.
  unfold FilterUtil.onlySeverity. simpl.
  rewrite !orb_true_iff, !LogSeverity_eqb_eq. split.
  - intros [H|[H|H]]; [left | right | discriminate]; exact H.
  - intros [H|H]; [left | right; left]; exact H.
Qed.

Lemma onlyIn_spec (diffs : list Diff) (log : LogType) :
  FilterUtil.onlyIn diffs log = true
  <-> exists entry, In entry diffs /\ diff_file entry = source log
                    /\ In (line log) (changedLines entry).
Proof.
  unfold FilterUtil.onlyIn, FilterUtil.inDiff. rewrite existsb_exists. split.
  - intros [entry [Hin H]]. apply andb_true_iff in H. destruct H as [Hf Hl].
    apply String.eqb_eq in Hf. apply existsb_exists in Hl. destruct Hl as [n [Hn Heq]].
    apply Z.eqb_eq in Heq. subst n. exists entry. auto.
  - intros [entry [Hin [Hf Hl]]]. exists entry. split; [exact Hin|].
    apply andb_true_iff. split; [apply String.eqb_eq; exact Hf|].
    apply existsb_exists. exists (line log). split; [exact Hl | apply Z.eqb_refl].
Qed.

Lemma filter_filter {A : Type} (p q : A -> bool) (xs : list A) :
  filter q (filter p xs) = filter (fun x => p x && q x) xs.
Proof.
  induction xs as [|x xs IH]; simpl; [reflexivity|].
  destruct (p x); simpl; [destruct (q x)|]; rewrite IH; reflexivity.
Qed.

(** ** Properties of the reporter *)

Ltac sift :=
  unfold callsWhere, isSetup, isListing, isDelete, isCleanup, isReviewPost, isSummaryPost,
    isStatus, setupEvents, listingEvents;
  repeat (rewrite eventsWhere_app || rewrite eventsWhere_cons);
  repeat match goal with
  | |- context [eventsWhere (atStage ?q) (done (deleteCalls ?u ?c ?r))] =>
      rewrite (@eventsWhere_uniform q _ _ (@uniform_done _ _ (deleteCalls_stage u c r)))
  | |- context [eventsWhere (atStage ?q) (done (postCalls ?sha ?d))] =>
      rewrite (@eventsWhere_uniform q _ _ (@uniform_done _ _ (postCalls_stage sha d)))
  | |- context [eventsWhere (atStage ?q) (done (summaryCalls ?d))] =>
      rewrite (@eventsWhere_uniform q _ _ (@uniform_done _ _ (summaryCalls_stage d)))
  | H : map ev_call ?seg = listingCalls |- context [eventsWhere (atStage ?q) ?seg] =>
      rewrite (@eventsWhere_uniform q _ _ (@uniform_batch _ _ _ H listingCalls_stage))
  | H : map ev_call ?seg = deleteCalls ?u ?c ?r |- context [eventsWhere (atStage ?q) ?seg] =>
      rewrite (@eventsWhere_uniform q _ _ (@uniform_batch _ _ _ H (deleteCalls_stage u c r)))
  | H : map ev_call ?seg = postCalls ?sha ?d |- context [eventsWhere (atStage ?q) ?seg] =>
      rewrite (@eventsWhere_uniform q _ _ (@uniform_batch _ _ _ H (postCalls_stage sha d)))
  end;
  simpl; rewrite ?app_nil_r, ?map_app, ?done_calls.

(** C2.  On every run that completes, the commit status is set once, to
    [failure] if and only if the number of errors the filter retained is
    greater than zero and to [success] otherwise, with the description the
    formatter derives from that number. *)
Theorem commit_status_follows_error_count
    (w : W) (f0 : GitHub.Fields) (b : bool) (st' : GitHub.State W) :
  GitHub.run self MessageUtil logs w f0 = (inr b, st') ->
  let n := errorCount (GitHub.touchedDiff (GitHub.this st')) in
  exists status,
    eventsWhere isStatus (GitHub.trace st')
    = [ok (SetCommitStatus (GitHub.commitId (GitHub.this st')) status
             (generateCommitDescription MessageUtil n)) RDone]
    /\ (status = failure <-> 0 < n)
    /\ (status = success <-> n = 0)
    /\ GitHub.nError (GitHub.this st') = n.
Proof.
  intros Hrun. apply run_shape in Hrun. destruct st' as [w' f' tr' lg']. simpl in *.
  inversion Hrun as [| | | | | | | sha d clean Hcl]; subst. simpl.
  exists (if 0 <? errorCount d then failure else success).
  split; [|split; [|split]].
  - inversion Hcl; subst; sift; unfold statusCall; rewrite totalErrors_count; reflexivity.
  - destruct (0 <? errorCount d) eqn:Hn.
    + apply Z.ltb_lt in Hn. split; [intros _; exact Hn | reflexivity].
    + apply Z.ltb_ge in Hn. split; [discriminate | lia].
  - pose proof (countZ_nonneg CommentUtil.isError (GitHub.touchedFileLog d logs)) as Hnn.
    fold (errorCount d) in Hnn.
    destruct (0 <? errorCount d) eqn:Hn.
    + apply Z.ltb_lt in Hn. split; [discriminate | lia].
    + apply Z.ltb_ge in Hn. split; [lia | reflexivity].
  - apply totalErrors_count.
Qed.

(** C3.  The summary comment is posted at most once, always with the
    overview message and only when the errors plus the warnings retained
    by the filter are more than zero; on a run that completes it is posted
    exactly once, and fulfilled, when that total is more than zero, and
    not at all when the total is zero. *)
Theorem summary_comment_iff_findings
    (w : W) (f0 : GitHub.Fields) (r : Error + bool) (st' : GitHub.State W) :
  GitHub.run self MessageUtil logs w f0 = (r, st') ->
  let d := GitHub.touchedDiff (GitHub.this st') in
  let overview :=
    generateOverviewMessage MessageUtil (errorCount d) (warningCount d) in
  let posted := eventsWhere isSummaryPost (GitHub.trace st') in
  (posted = []
   \/ (map ev_call posted = [CreateComment overview]
       /\ 0 < errorCount d + warningCount d))
  /\ ((exists b, r = inr b) ->
      (0 < errorCount d + warningCount d -> posted = [ok (CreateComment overview) RDone])
      /\ (errorCount d + warningCount d = 0 -> posted = [])).
Proof.
  intros Hrun. apply run_shape in Hrun. destruct st' as [w' f' tr' lg']. simpl in *.
  inversion Hrun as [e | sha e | sha d seg e Hrm Hc Hr | sha d uid cs rs seg e Hrm Hc Hr
                    | sha d clean seg e Hcl Hc Hr | sha d clean e Hcl Hpos
                    | sha d clean e Hcl | sha d clean Hcl]; subst; simpl;
    try match goal with H : Cleaned _ |- _ => inversion H; subst end;
    sift;
    unfold done, summaryCalls; rewrite ?totalErrors_count, ?totalWarnings_count in *;
    try (destruct (0 <? warningCount d + errorCount d) eqn:Hp;
         [apply Z.ltb_lt in Hp | apply Z.ltb_ge in Hp]);
    simpl;
    (split;
     [ first [ left; reflexivity | right; split; [reflexivity | lia] ]
     | intros [b Hb]; try discriminate; split; intros; first [reflexivity | lia] ]).
Qed.

(** C1, as amended.  On every run in which every adapter call is
    fulfilled, [report] returns [true], whatever the number of errors the
    filter retained. *)
Theorem report_returns_true_when_calls_succeed
    (w : W) (f0 : GitHub.Fields) (r : Error + bool) (st' : GitHub.State W) :
  GitHub.run self MessageUtil logs w f0 = (r, st') ->
  Forall (fun ev => fulfilled ev = true) (GitHub.trace st') ->
  r = inr true.
Proof.
  intros Hrun Hall. apply run_shape in Hrun. destruct r as [e|b].
  - apply shape_rejects, rejects_unfulfilled in Hrun. destruct Hrun as [ev [Hin Hf]].
    rewrite Forall_forall in Hall. rewrite (Hall ev Hin) in Hf. discriminate.
  - apply shape_completed_fulfilled in Hrun. destruct Hrun as [-> _]. reflexivity.
Qed.

(** C8.  In the trace of every run the phases follow one another: of two
    calls, the one issued first belongs to the same phase or to an
    earlier one, and a call of an earlier phase was fulfilled before any
    call of a later phase was issued. *)
Theorem phases_run_in_sequence
    (w : W) (f0 : GitHub.Fields) (r : Error + bool) (st' : GitHub.State W)
    (l1 l2 l3 : list Event) (a b : Event) :
  GitHub.run self MessageUtil logs w f0 = (r, st') ->
  GitHub.trace st' = l1 ++ a :: l2 ++ b :: l3 ->
  (phase (ev_call a) <= phase (ev_call b))%nat
  /\ ((phase (ev_call a) < phase (ev_call b))%nat -> fulfilled a = true).
Proof.
  intros Hrun Htr. apply run_shape, shape_ordered in Hrun. rewrite Htr in Hrun.
  apply sorted_pair in Hrun. destruct Hrun as [Hle Hlt].
  destruct (phase_stage (ev_call a) (ev_call b)) as [H1 H2].
  split; [apply H1; exact Hle | intros H; apply Hlt, H2, H].
Qed.

Lemma shape_issuedOnce f0 r tr f :
  Shape f0 r tr f -> issuedOnce f tr.
Proof.
  intros Hshape. unfold issuedOnce.
  inversion Hshape as [e0 | sha e0 | sha d seg e0 Hrm Hc Hr
                      | sha d uid cs rs seg e0 Hrm Hc Hr
                      | sha d clean seg e0 Hcl Hc Hr | sha d clean e0 Hcl Hpos
                      | sha d clean e0 Hcl | sha d clean Hcl ]; subst; simpl;
    try match goal with H : Cleaned _ |- _ => inversion H; subst end;
    sift;
    repeat match goal with |- _ /\ _ => split end;
    try (simpl; lia);
    try (unfold done, summaryCalls; destruct (0 <? _); simpl; lia);
    first [ left; reflexivity
          | right; reflexivity
          | right; assumption
          | right; do 3 eexists; split; [reflexivity | first [assumption | reflexivity]] ].
Qed.

(** C6.  If an adapter call of a run is rejected, [report] throws the
    error of a rejected call, after logging it; no call of a later stage
    is issued, and no call is issued a second time. *)
Theorem adapter_rejection_propagates
    (w : W) (f0 : GitHub.Fields) (r : Error + bool) (st' : GitHub.State W) (ev : Event) :
  GitHub.run self MessageUtil logs w f0 = (r, st') ->
  In ev (GitHub.trace st') ->
  fulfilled ev = false ->
  exists e,
    r = inl e
    /\ rejects e (GitHub.trace st')
    /\ (exists lg, GitHub.logged st' = lg ++ [LogError "GitHub report failed" e])
    /\ (forall ev', In ev' (GitHub.trace st') ->
                    (stage (ev_call ev') <= stage (ev_call ev))%nat)
    /\ issuedOnce (GitHub.this st') (GitHub.trace st').
Proof.
  intros Hrun Hin Hf. pose proof (run_shape _ _ Hrun) as Hshape.
  destruct r as [e|b].
  - exists e. split; [reflexivity|]. split; [apply (shape_rejects Hshape)|].
    split; [apply (run_logs_error _ _ Hrun)|].
    split.
    + intros ev' Hin'. eapply rejected_in_last_stage; eauto.
      apply (shape_ordered Hshape).
    + apply (shape_issuedOnce Hshape).
  - apply shape_completed_fulfilled in Hshape. destruct Hshape as [_ Hall].
    rewrite Forall_forall in Hall. rewrite (Hall ev Hin) in Hf. discriminate.
Qed.

(** ** The clean-up stage inside a run *)

Ltac shape_cases H :=
  inversion H as [e0 | sha e0 | sha d seg e0 Hrm Hc Hr
                 | sha d uid0 cs0 rs0 seg e0 Hrm Hc Hr
                 | sha d clean seg e0 Hcl Hc Hr | sha d clean e0 Hcl Hpos
                 | sha d clean e0 Hcl | sha d clean Hcl ]; subst; simpl;
  try match goal with Hc' : Cleaned _ |- _ => inversion Hc'; subst end.

Lemma shape_deletes f0 r tr f uid cs rs :
  Shape f0 r tr f ->
  eventsWhere isListing tr = listingEvents uid cs rs ->
  callsWhere isDelete tr = deleteCalls uid cs rs.
Proof.
  intros Hshape. shape_cases Hshape; sift; intros Hl;
    try discriminate; try (inversion Hl; subst; first [reflexivity | assumption]).
  subst seg. destruct Hr as [ev [Hin He]]. simpl in Hin.
  destruct Hin as [<-|[<-|[<-|[]]]]; discriminate.
Qed.

Lemma shape_no_cleanup f0 r tr f :
  Shape f0 r tr f ->
  GitHub.removeOldComment self = false ->
  callsWhere isCleanup tr = [].
Proof.
  intros Hshape Hoff. shape_cases Hshape; sift; try reflexivity; congruence.
Qed.

Lemma shape_listing f0 r tr f sha' d' :
  Shape f0 r tr f ->
  GitHub.removeOldComment self = true ->
  eventsWhere isSetup tr = setupEvents sha' d' ->
  callsWhere isListing tr = listingCalls.
Proof.
  intros Hshape Hon. shape_cases Hshape; sift; intros Hs;
    try discriminate; try reflexivity; try assumption; congruence.
Qed.

(** C5.  The constructor leaves stale-comment removal off by default.  A
    run of an instance with removal off issues no clean-up call; a run
    with removal on issues the three listings once setup went through;
    and in every run whose listings were fulfilled, the deletions issued
    are exactly one per listed comment authored by the current user: such
    a comment is deleted once, any other listed comment never. *)
Theorem stale_comments_deleted_once
    (w : W) (f0 : GitHub.Fields) (r : Error + bool) (st' : GitHub.State W) :
  GitHub.run self MessageUtil logs w f0 = (r, st') ->
  let tr := GitHub.trace st' in
  GitHub.removeOldComment (GitHub.new (GitHub.prService self) None) = false
  /\ (GitHub.removeOldComment self = false -> callsWhere isCleanup tr = [])
  /\ (GitHub.removeOldComment self = true ->
      forall sha d, eventsWhere isSetup tr = setupEvents sha d ->
                    callsWhere isListing tr = listingCalls)
  /\ (forall uid cs rs,
        eventsWhere isListing tr = listingEvents uid cs rs ->
        callsWhere isDelete tr = deleteCalls uid cs rs
        /\ (NoDup (map comment_id cs) ->
            forall c, In c cs ->
                      commentDeletions (comment_id c) tr
                      = if GitHub.authoredBy uid (comment_user c) then 1%nat else 0%nat)
        /\ (NoDup (map review_id rs) ->
            forall x, In x rs ->
                      reviewDeletions (review_id x) tr
                      = if GitHub.authoredBy uid (review_user x) then 1%nat else 0%nat)).
Proof.
  intros Hrun tr. apply run_shape in Hrun. subst tr.
  split; [reflexivity|]. split; [apply (shape_no_cleanup Hrun)|].
  split; [intros Hon sha d; apply (shape_listing Hrun Hon)|].
  intros uid cs rs Hl. pose proof (shape_deletes Hrun Hl) as Hd.
  split; [exact Hd|]. split.
  - intros Hnd c Hc. rewrite commentDeletions_calls, Hd.
    apply deleteCalls_comment_count; assumption.
  - intros Hnd x Hx. rewrite reviewDeletions_calls, Hd.
    apply deleteCalls_review_count; assumption.
Qed.

(** C9.  The author test fails on an absent [user] for every user id;
    so in every run whose listings were fulfilled, a listed top-level or
    review comment without [user] is not among the selected ones and no
    deletion is issued for it. *)
Theorem comments_without_user_are_kept
    (w : W) (f0 : GitHub.Fields) (r : Error + bool) (st' : GitHub.State W)
    (uid : Z) (cs : list IssueComment) (rs : list ReviewComment) :
  GitHub.run self MessageUtil logs w f0 = (r, st') ->
  eventsWhere isListing (GitHub.trace st') = listingEvents uid cs rs ->
  (forall anyId, GitHub.authoredBy anyId None = false)
  /\ (forall c, In c cs -> comment_user c = None ->
                ~ In c (filter (fun c => GitHub.authoredBy uid (comment_user c)) cs))
  /\ (forall x, In x rs -> review_user x = None ->
                ~ In x (filter (fun r => GitHub.authoredBy uid (review_user r)) rs))
  /\ (NoDup (map comment_id cs) ->
      forall c, In c cs -> comment_user c = None ->
                commentDeletions (comment_id c) (GitHub.trace st') = 0%nat)
  /\ (NoDup (map review_id rs) ->
      forall x, In x rs -> review_user x = None ->
                reviewDeletions (review_id x) (GitHub.trace st') = 0%nat).
Proof.
  intros Hrun Hl. apply run_shape in Hrun. pose proof (shape_deletes Hrun Hl) as Hd.
  split; [reflexivity|].
  split; [|split; [|split]].
  - intros c _ Hnone Hin. apply filter_In in Hin. destruct Hin as [_ Hsel].
    rewrite Hnone in Hsel. discriminate.
  - intros x _ Hnone Hin. apply filter_In in Hin. destruct Hin as [_ Hsel].
    rewrite Hnone in Hsel. discriminate.
  - intros Hnd c Hc Hnone. rewrite commentDeletions_calls, Hd.
    rewrite deleteCalls_comment_count by assumption. rewrite Hnone. reflexivity.
  - intros Hnd x Hx Hnone. rewrite reviewDeletions_calls, Hd.
    rewrite deleteCalls_review_count by assumption. rewrite Hnone. reflexivity.
Qed.

(** C10.  In every run whose listings were fulfilled, a deletion is
    issued for every listed top-level comment and every listed review
    comment whose author id is the current user id.  The system flag of a
    top-level comment plays no part: the selection reads the author only,
    and a comment flagged as system-generated is deleted like any other. *)
Theorem own_comments_deleted_whatever_the_system_flag
    (w : W) (f0 : GitHub.Fields) (r : Error + bool) (st' : GitHub.State W)
    (uid : Z) (cs : list IssueComment) (rs : list ReviewComment) :
  GitHub.run self MessageUtil logs w f0 = (r, st') ->
  eventsWhere isListing (GitHub.trace st') = listingEvents uid cs rs ->
  (forall c u, In c cs -> comment_user c = Some u -> user_id u = uid ->
               In (DeleteComment (comment_id c)) (callsWhere isDelete (GitHub.trace st')))
  /\ (forall x u, In x rs -> review_user x = Some u -> user_id u = uid ->
                  In (DeleteReviewComment (review_id x))
                     (callsWhere isDelete (GitHub.trace st')))
  /\ (forall id flag,
        In (mkIssueComment id (Some (mkUser uid)) flag) cs ->
        In (DeleteComment id) (callsWhere isDelete (GitHub.trace st')))
  /\ (forall id user flag flag',
        GitHub.authoredBy uid (comment_user (mkIssueComment id user flag))
        = GitHub.authoredBy uid (comment_user (mkIssueComment id user flag')))
  /\ (NoDup (map comment_id cs) ->
      forall c u, In c cs -> comment_user c = Some u -> user_id u = uid ->
                  commentDeletions (comment_id c) (GitHub.trace st') = 1%nat).
Proof.
  intros Hrun Hl. apply run_shape in Hrun. pose proof (shape_deletes Hrun Hl) as Hd.
  assert (Hsel : forall c u, In c cs -> comment_user c = Some u -> user_id u = uid ->
                 In (DeleteComment (comment_id c))
                    (callsWhere isDelete (GitHub.trace st'))).
  { intros c u Hc Hu Hid. rewrite Hd. unfold deleteCalls. apply in_or_app. left.
    apply (in_map (fun c => DeleteComment (comment_id c))). apply filter_In.
    split; [exact Hc|]. rewrite Hu. simpl. apply Z.eqb_eq. exact Hid. }
  split; [exact Hsel|]. split; [|split; [|split]].
  - intros x u Hx Hu Hid. rewrite Hd. unfold deleteCalls. apply in_or_app. right.
    apply (in_map (fun r => DeleteReviewComment (review_id r))). apply filter_In.
    split; [exact Hx|]. rewrite Hu. simpl. apply Z.eqb_eq. exact Hid.
  - intros id flag Hin. apply (Hsel _ (mkUser uid) Hin); reflexivity.
  - reflexivity.
  - intros Hnd c u Hc Hu Hid. rewrite commentDeletions_calls, Hd.
    rewrite deleteCalls_comment_count by assumption. rewrite Hu. simpl.
    rewrite (proj2 (Z.eqb_eq _ _) Hid). reflexivity.
Qed.

(** C7.  When the filter retains no finding for the fetched diff, no
    inline comment and no summary comment is posted; if the run completes,
    the commit status is still set, to [success], the listings and the
    deletions of the clean-up stage are still issued when removal is on,
    and no clean-up call is issued when it is off. *)
Theorem nothing_posted_when_nothing_retained
    (w : W) (f0 : GitHub.Fields) (r : Error + bool) (st' : GitHub.State W) :
  GitHub.run self MessageUtil logs w f0 = (r, st') ->
  GitHub.touchedFileLog (GitHub.touchedDiff (GitHub.this st')) logs = [] ->
  let tr := GitHub.trace st' in
  callsWhere isReviewPost tr = []
  /\ callsWhere isSummaryPost tr = []
  /\ ((exists b, r = inr b) ->
      eventsWhere isStatus tr
      = [ok (SetCommitStatus (GitHub.commitId (GitHub.this st')) success
               (generateCommitDescription MessageUtil 0)) RDone]
      /\ (GitHub.removeOldComment self = true ->
          exists uid cs rs,
            eventsWhere isListing tr = listingEvents uid cs rs
            /\ callsWhere isDelete tr = deleteCalls uid cs rs)
      /\ (GitHub.removeOldComment self = false -> callsWhere isCleanup tr = [])).
Proof.
  intros Hrun Hnone tr. subst tr. apply run_shape in Hrun.
  destruct st' as [w' f' tr' lg']. simpl in *.
  assert (Hd : forall d, GitHub.touchedFileLog d logs = [] ->
               commentsOf d = [] /\ totalErrors d = 0 /\ totalWarnings d = 0).
  { intros d Hd. unfold totalErrors, totalWarnings, commentsOf. rewrite Hd.
    repeat split; reflexivity. }
  shape_cases Hrun; simpl in Hnone;
    try (destruct (Hd _ Hnone) as [Hcs [Hte Htw]]);
    sift;
    unfold postCalls, summaryCalls, statusCall in *;
    rewrite ?Hcs, ?Hte, ?Htw in *; simpl in *;
    try discriminate;
    (split; [first [reflexivity | assumption] | split; [reflexivity|]]);
    intros [b Hb]; try discriminate;
    (split;
     [ reflexivity
     | split; intros Hflag;
       first [congruence | reflexivity | do 3 eexists; split; reflexivity] ]).
Qed.

(** C4.  The filter stage keeps a finding if and only if its severity
    is [error] or [warning] and its line is a changed line of a diff entry
    for its file.  It keeps the findings in their order; a finding of
    another severity or on no changed line is dropped; with an empty diff
    nothing is kept. *)
Theorem filter_keeps_touched_errors_and_warnings
    (diffs : list Diff) (findings : list LogType) :
  (forall log,
      In log (GitHub.touchedFileLog diffs findings)
      <-> In log findings
          /\ (severity log = error \/ severity log = warning)
          /\ exists entry, In entry diffs /\ diff_file entry = source log
                            /\ In (line log) (changedLines entry))
  /\ GitHub.touchedFileLog diffs findings
     = filter (fun log => FilterUtil.onlySeverity [error; warning] log
                          && FilterUtil.onlyIn diffs log) findings
  /\ (forall log label,
        severity log = other label -> ~ In log (GitHub.touchedFileLog diffs findings))
  /\ (forall log,
        (forall entry, In entry diffs ->
                       diff_file entry <> source log \/ ~ In (line log) (changedLines entry)) ->
        ~ In log (GitHub.touchedFileLog diffs findings))
  /\ GitHub.touchedFileLog [] findings = [].
Proof.
  assert (Hiff : forall log,
             In log (GitHub.touchedFileLog diffs findings)
             <-> In log findings
                 /\ (severity log = error \/ severity log = warning)
                 /\ exists entry, In entry diffs /\ diff_file entry = source log
                                   /\ In (line log) (changedLines entry)).
  { intros log. unfold GitHub.touchedFileLog.
    rewrite !filter_In, onlySeverity_spec, onlyIn_spec. tauto. }
  split; [exact Hiff|]. split; [apply filter_filter|]. split; [|split].
  - intros log label Hsev Hin. apply Hiff in Hin. destruct Hin as [_ [[H|H] _]];
      rewrite Hsev in H; discriminate.
  - intros log Hout Hin. apply Hiff in Hin.
    destruct Hin as [_ [_ [entry [Hentry [Hfile Hline]]]]].
    destruct (Hout entry Hentry) as [H|H]; contradiction.
  - unfold GitHub.touchedFileLog. apply filter_none. reflexivity.
Qed.

(** ** Further properties of the reporter *)

Lemma in_eventsWhere (p : Call -> bool) (ev : Event) (tr : list Event) :
  In ev tr -> p (ev_call ev) = true -> In ev (eventsWhere p tr).
Proof. intros Hin Hp. apply filter_In. split; assumption. Qed.

(** X1.  On a run that completes, the inline comments posted are exactly
    one per comment of the instance, in the order of the comments, each
    with the text, file and line of its comment, each fulfilled, and all
    at the commit sha that [getLatestCommitSha] answered in this run. *)
Theorem inline_comments_follow_comments
    (w : W) (f0 : GitHub.Fields) (b : bool) (st' : GitHub.State W) :
  GitHub.run self MessageUtil logs w f0 = (inr b, st') ->
  let f := GitHub.this st' in
  hd_error (GitHub.trace st') = Some (ok GetLatestCommitSha (RSha (GitHub.commitId f)))
  /\ eventsWhere isReviewPost (GitHub.trace st')
     = map (fun c => ok (CreateReviewComment (GitHub.commitId f) (text c) (file c) (cline c))
                        RDone)
           (GitHub.comments f).
Proof.
  intros Hrun. apply run_shape in Hrun. destruct st' as [w' f' tr' lg']. simpl in *.
  inversion Hrun as [| | | | | | | sha d clean Hcl]; subst. simpl.
  split; [reflexivity|].
  inversion Hcl; subst; sift; unfold done, postCalls, postCall; rewrite map_map;
    reflexivity.
Qed.

Lemma setup_twice (w : W) (f1 f2 : GitHub.Fields) :
  (exists e w' lg,
      GitHub.setup self MessageUtil logs (GitHub.mkState w f1 [] [])
      = (inl e, GitHub.mkState w' f1 [mkEvent GetLatestCommitSha (inl e)] lg)
      /\ GitHub.setup self MessageUtil logs (GitHub.mkState w f2 [] [])
         = (inl e, GitHub.mkState w' f2 [mkEvent GetLatestCommitSha (inl e)] lg))
  \/ (exists sha e w' lg g1 g2,
      GitHub.setup self MessageUtil logs (GitHub.mkState w f1 [] [])
      = (inl e, GitHub.mkState w' g1
                  [ok GetLatestCommitSha (RSha sha); mkEvent GetDiff (inl e)] lg)
      /\ GitHub.setup self MessageUtil logs (GitHub.mkState w f2 [] [])
         = (inl e, GitHub.mkState w' g2
                     [ok GetLatestCommitSha (RSha sha); mkEvent GetDiff (inl e)] lg))
  \/ (exists st,
      GitHub.setup self MessageUtil logs (GitHub.mkState w f1 [] []) = (inr tt, st)
      /\ GitHub.setup self MessageUtil logs (GitHub.mkState w f2 [] []) = (inr tt, st)).
Proof.
  unfold GitHub.setup, GitHub.bind, GitHub.invoke, GitHub.await, GitHub.setThis, GitHub.write.
  simpl.
  destruct (IGitHubPRService.getLatestCommitSha (GitHub.prService self) w)
    as [[t1 [e|sha]] w1]; simpl.
  - left. exists e, w1. eexists. split; reflexivity.
  - destruct (IGitHubPRService.diff (GitHub.prService self) w1) as [[t2 [e|d]] w2]; simpl.
    + right; left. exists sha, e, w2. do 3 eexists. split; reflexivity.
    + right; right. eexists. split; reflexivity.
Qed.

(** X2.  A run does not depend on what the fields of the instance held
    before: from the same world, two runs that start from different
    fields return the same result, issue the same adapter calls with the
    same outcomes, write the same log and leave the same world; and once
    the diff was fetched they leave the same fields. *)
Theorem report_ignores_previous_fields (w : W) (f1 f2 : GitHub.Fields) :
  let res1 := GitHub.run self MessageUtil logs w f1 in
  let res2 := GitHub.run self MessageUtil logs w f2 in
  fst res1 = fst res2
  /\ GitHub.world (snd res1) = GitHub.world (snd res2)
  /\ GitHub.trace (snd res1) = GitHub.trace (snd res2)
  /\ GitHub.logged (snd res1) = GitHub.logged (snd res2)
  /\ ((exists d, In (ok GetDiff (RDiff d)) (GitHub.trace (snd res1))) ->
      GitHub.this (snd res1) = GitHub.this (snd res2)).
Proof.
  unfold GitHub.run, GitHub.report.
  match goal with
  | |- context [GitHub.bind (GitHub.setup self MessageUtil logs) ?k] => set (rest := k)
  end.
  unfold GitHub.tryCatch, GitHub.bind, GitHub.write, GitHub.throw, GitHub.ret.
  destruct (setup_twice w f1 f2)
    as [[e [w' [lg [H1 H2]]]] | [[sha [e [w' [lg [g1 [g2 [H1 H2]]]]]]] | [st [H1 H2]]]];
    rewrite H1, H2; simpl.
  - repeat split; try reflexivity.
    intros [d [Hd|[]]]. inversion Hd.
  - repeat split; try reflexivity.
    intros [d [Hd|[Hd|[]]]]; inversion Hd.
  - destruct (rest tt st) as [[e|a] st1]; simpl; repeat split; reflexivity.
Qed.

(** X3.  When [getLatestCommitSha] rejects, the diff is never requested:
    the rejected call is the only adapter call of the run, [report] throws
    its error and the fields of the instance are left as they were.  When
    [diff] rejects, the two setup calls are the only adapter calls,
    [report] throws the error of [diff], and of the fields only [commitId]
    has changed, to the sha just fetched. *)
Theorem setup_failure_stops_the_run
    (w : W) (f0 : GitHub.Fields) (r : Error + bool) (st' : GitHub.State W) (e : Error) :
  GitHub.run self MessageUtil logs w f0 = (r, st') ->
  (In (mkEvent GetLatestCommitSha (inl e)) (GitHub.trace st') ->
   r = inl e
   /\ GitHub.trace st' = [mkEvent GetLatestCommitSha (inl e)]
   /\ GitHub.this st' = f0)
  /\ (In (mkEvent GetDiff (inl e)) (GitHub.trace st') ->
      r = inl e
      /\ exists sha,
           GitHub.trace st' = [ok GetLatestCommitSha (RSha sha); mkEvent GetDiff (inl e)]
           /\ GitHub.this st'
              = GitHub.mkFields sha (GitHub.touchedDiff f0) (GitHub.comments f0)
                  (GitHub.nWarning f0) (GitHub.nError f0)).
Proof.
  intros Hrun. apply run_shape in Hrun. destruct st' as [w' f' tr' lg']. simpl in *.
  split; intros Hin.
  - apply (in_eventsWhere (atStage (Nat.eqb 0))) in Hin; [|reflexivity].
    revert Hin. shape_cases Hrun; sift; intros [Heq|[]]; inversion Heq; subst.
    repeat split; reflexivity.
  - apply (in_eventsWhere (atStage (Nat.eqb 1))) in Hin; [|reflexivity].
    revert Hin. shape_cases Hrun; sift; try (intros Hfalse; contradiction);
      intros [Heq|[]]; inversion Heq; subst.
    split; [reflexivity|]. exists sha. split; reflexivity.
Qed.

(** X4.  Once the diff was fetched, the fields of the instance are the
    ones [setup] computed, whether the run completes or fails later:
    [commitId] is the fetched sha, [touchedDiff] the fetched diff,
    [comments] the grouped findings that passed the two filters, and
    [nError] and [nWarning] the sums of the error and warning counts of
    these comments. *)
Theorem fields_after_setup
    (w : W) (f0 : GitHub.Fields) (r : Error + bool) (st' : GitHub.State W)
    (fetched : list Diff) :
  GitHub.run self MessageUtil logs w f0 = (r, st') ->
  In (ok GetDiff (RDiff fetched)) (GitHub.trace st') ->
  let f := GitHub.this st' in
  hd_error (GitHub.trace st') = Some (ok GetLatestCommitSha (RSha (GitHub.commitId f)))
  /\ GitHub.touchedDiff f = fetched
  /\ GitHub.comments f
     = CommentUtil.groupComments MessageUtil
         (filter (FilterUtil.onlyIn fetched)
            (filter (FilterUtil.onlySeverity [error; warning]) logs))
  /\ GitHub.nError f = GitHub.sumOf errors (GitHub.comments f)
  /\ GitHub.nWarning f = GitHub.sumOf warnings (GitHub.comments f).
Proof.
  intros Hrun Hin. apply run_shape in Hrun. destruct st' as [w' f' tr' lg']. simpl in *.
  apply (in_eventsWhere (atStage (Nat.eqb 1))) in Hin; [|reflexivity].
  revert Hin. shape_cases Hrun; sift; try (intros Hfalse; contradiction);
    intros [Heq|[]]; inversion Heq; subst; repeat split; reflexivity.
Qed.

Lemma callsWhere_inhabited (p : Call -> bool) (ev : Event) (tr : list Event) :
  In ev tr -> p (ev_call ev) = true -> callsWhere p tr <> [].
Proof.
  intros Hin Hp Hnil. apply (in_eventsWhere p) in Hin; [|exact Hp].
  apply (in_map ev_call) in Hin. unfold callsWhere in Hnil. rewrite Hnil in Hin.
  contradiction.
Qed.

(** X5.  The calls of a fan-out are issued all or none, whatever their
    outcomes: a trace that holds one listing holds the three listings; a
    trace that holds one deletion holds the deletion of every listed
    comment authored by the current user; a trace that holds one inline
    post holds one post per comment of the instance.  So a rejected call
    does not keep the other calls of its batch from being issued. *)
Theorem batches_are_issued_whole
    (w : W) (f0 : GitHub.Fields) (r : Error + bool) (st' : GitHub.State W) (ev : Event) :
  GitHub.run self MessageUtil logs w f0 = (r, st') ->
  In ev (GitHub.trace st') ->
  let tr := GitHub.trace st' in
  let f := GitHub.this st' in
  (isListing (ev_call ev) = true ->
   callsWhere isListing tr = [GetCurrentUserId; ListAllComments; ListAllReviewComments])
  /\ (isDelete (ev_call ev) = true ->
      exists uid cs rs,
        eventsWhere isListing tr = listingEvents uid cs rs
        /\ callsWhere isDelete tr
           = map (fun c => DeleteComment (comment_id c))
               (filter (fun c => GitHub.authoredBy uid (comment_user c)) cs)
             ++ map (fun x => DeleteReviewComment (review_id x))
                  (filter (fun x => GitHub.authoredBy uid (review_user x)) rs))
  /\ (isReviewPost (ev_call ev) = true ->
      callsWhere isReviewPost tr
      = map (fun c => CreateReviewComment (GitHub.commitId f) (text c) (file c) (cline c))
          (GitHub.comments f)).
Proof.
  intros Hrun Hin tr f. subst tr f. apply run_shape, shape_issuedOnce in Hrun.
  destruct Hrun as [_ [_ [_ [_ [Hlist [Hdel Hpost]]]]]].
  split; [|split]; intros Hp.
  - destruct Hlist as [Hnil|Hall]; [|exact Hall].
    exfalso. exact (@callsWhere_inhabited _ _ _ Hin Hp Hnil).
  - destruct Hdel as [Hnil|Hall]; [|exact Hall].
    exfalso. exact (@callsWhere_inhabited _ _ _ Hin Hp Hnil).
  - destruct Hpost as [Hnil|Hall]; [|exact Hall].
    exfalso. exact (@callsWhere_inhabited _ _ _ Hin Hp Hnil).
Qed.

(** X6.  The number of adapter calls of a run that completes: two for
    setup, one per comment of the instance, one for the summary when
    warnings plus errors are more than zero, one for the commit status;
    and, when old comments are removed, three listings and one deletion
    per listed comment authored by the current user. *)
Theorem completed_run_call_count
    (w : W) (f0 : GitHub.Fields) (b : bool) (st' : GitHub.State W) :
  GitHub.run self MessageUtil logs w f0 = (inr b, st') ->
  let tr := GitHub.trace st' in
  let f := GitHub.this st' in
  let posts :=
    (length (GitHub.comments f)
     + (if (0 <? GitHub.nWarning f + GitHub.nError f)%Z then 1 else 0))%nat in
  (GitHub.removeOldComment self = false -> length tr = (3 + posts)%nat)
  /\ (GitHub.removeOldComment self = true ->
      forall uid cs rs,
        eventsWhere isListing tr = listingEvents uid cs rs ->
        length tr
        = (6 + length (filter (fun c => GitHub.authoredBy uid (comment_user c)) cs)
           + length (filter (fun x => GitHub.authoredBy uid (review_user x)) rs)
           + posts)%nat).
Proof.
  intros Hrun. apply run_shape in Hrun. destruct st' as [w' f' tr' lg']. simpl in *.
  inversion Hrun as [| | | | | | | sha d clean Hcl]; subst. simpl.
  assert (Hsum : length (done (summaryCalls d))
                 = if 0 <? totalWarnings d + totalErrors d then 1%nat else 0%nat).
  { unfold done, summaryCalls. destruct (0 <? _); reflexivity. }
  assert (Hposts : length (done (postCalls sha d)) = length (commentsOf d)).
  { unfold done, postCalls. rewrite !length_map. reflexivity. }
  inversion Hcl as [Hoff | uid0 cs0 rs0 Hon]; subst; split; intros Hflag; try congruence.
  - simpl. rewrite !length_app, Hsum, Hposts. simpl. lia.
  - intros uid cs rs. sift. intros Hl. inversion Hl; subst.
    rewrite !length_app, Hsum, Hposts. unfold done, deleteCalls.
    rewrite !length_map, !length_app, !length_map. simpl. lia.
Qed.

(** X7.  When [setCommitStatus] rejects, [report] throws its error and
    nothing is undone: every inline comment was posted and fulfilled, the
    summary comment was posted and fulfilled when warnings plus errors are
    more than zero, and the rejected call, with the status and the
    description computed from [nError], is the last call of the run. *)
Theorem status_failure_undoes_nothing
    (w : W) (f0 : GitHub.Fields) (r : Error + bool) (st' : GitHub.State W)
    (c : Call) (e : Error) :
  GitHub.run self MessageUtil logs w f0 = (r, st') ->
  In (mkEvent c (inl e)) (GitHub.trace st') ->
  isStatus c = true ->
  let tr := GitHub.trace st' in
  let f := GitHub.this st' in
  r = inl e
  /\ c = SetCommitStatus (GitHub.commitId f)
           (if 0 <? GitHub.nError f then failure else success)
           (generateCommitDescription MessageUtil (GitHub.nError f))
  /\ last tr (mkEvent c (inl e)) = mkEvent c (inl e)
  /\ eventsWhere isStatus tr = [mkEvent c (inl e)]
  /\ eventsWhere isReviewPost tr
     = map (fun k => ok (CreateReviewComment (GitHub.commitId f) (text k) (file k) (cline k))
                        RDone)
           (GitHub.comments f)
  /\ eventsWhere isSummaryPost tr
     = if 0 <? GitHub.nWarning f + GitHub.nError f
       then [ok (CreateComment (generateOverviewMessage MessageUtil
                                  (GitHub.nError f) (GitHub.nWarning f))) RDone]
       else [].
Proof.
  intros Hrun Hin Hc. apply run_shape in Hrun. destruct st' as [w' f' tr' lg']. simpl in *.
  apply (in_eventsWhere isStatus) in Hin; [|exact Hc]. clear Hc.
  revert Hin. inversion Hrun as [e0 | sha e0 | sha d seg e0 Hrm Hc Hr
                 | sha d uid0 cs0 rs0 seg e0 Hrm Hc Hr
                 | sha d clean seg e0 Hcl Hc Hr | sha d clean e0 Hcl Hpos
                 | sha d clean e0 Hcl | sha d clean Hcl ]; subst; simpl;
    try match goal with Hc' : Cleaned _ |- _ => inversion Hc'; subst end;
    sift;
    try (intros Hfalse; contradiction);
    intros [Heq|[]]; inversion Heq; subst;
    match type of Hrun with
    | Shape _ _ ?T _ =>
        assert (Hlast : last T (mkEvent (statusCall sha d) (inl e))
                        = mkEvent (statusCall sha d) (inl e))
          by (rewrite !app_assoc; apply last_last)
    end;
    (split; [reflexivity|]); (split; [reflexivity|]); (split; [exact Hlast|]);
    (split; [reflexivity|]); split.
  all: try (unfold done, postCalls, postCall; rewrite map_map; reflexivity).
  all: unfold done, summaryCalls; destruct (0 <? _); reflexivity.
Qed.

End Shape.

(* ===================================================================== *)
(** * The properties on the runs of the mock                              *)
(* ===================================================================== *)

(** The scenarios of the spec, evaluated. *)

Example fullRun_calls :
  fst Mock.fullRun = inr true
  /\ map ev_call (GitHub.trace (snd Mock.fullRun))
     = [GetLatestCommitSha; GetDiff;
        GetCurrentUserId; ListAllComments; ListAllReviewComments;
        DeleteComment 1; DeleteComment 6544321; DeleteReviewComment 8;
        CreateReviewComment "cafe01" "unused variable" "src/app.ts" 11;
        CreateReviewComment "cafe01" "prefer const" "src/app.ts" 12;
        CreateComment "overview";
        SetCommitStatus "cafe01" failure "errors found"].
Proof. split; vm_compute; reflexivity. Qed.

Example warningRun_calls :
  map ev_call
    (GitHub.trace
       (snd (GitHub.run Mock.plain Mock.messages
               [Mock.touchFileWarning; Mock.untouchedError; Mock.untouchedWarning]
               0%nat Mock.blank)))
  = [GetLatestCommitSha; GetDiff;
     CreateReviewComment "cafe01" "prefer const" "src/app.ts" 12;
     CreateComment "overview";
     SetCommitStatus "cafe01" success "no error"].
Proof. vm_compute. reflexivity. Qed.

Example emptyRun_calls :
  map ev_call
    (GitHub.trace (snd (GitHub.run Mock.cleaning Mock.messages [] 0%nat Mock.blank)))
  = [GetLatestCommitSha; GetDiff;
     GetCurrentUserId; ListAllComments; ListAllReviewComments;
     DeleteComment 1; DeleteComment 6544321; DeleteReviewComment 8;
     SetCommitStatus "cafe01" success "no error"].
Proof. vm_compute. reflexivity. Qed.

Example failedRun_calls :
  fst Mock.failedRun = inl "Bad credentials"
  /\ map ev_call (GitHub.trace (snd Mock.failedRun))
     = [GetLatestCommitSha; GetDiff;
        GetCurrentUserId; ListAllComments; ListAllReviewComments;
        DeleteComment 1; DeleteComment 6544321; DeleteReviewComment 8].
Proof. split; vm_compute; reflexivity. Qed.

(** C1, as the claim states it, fails on the run over one error on a
    touched line: every adapter call is fulfilled and [report] returns
    [true], yet the filter retained one error. *)
Lemma report_true_with_one_error_retained :
  Forall (fun ev => fulfilled ev = true) (GitHub.trace (snd Mock.errorRun))
  /\ fst Mock.errorRun = inr true
  /\ errorCount [Mock.touchFileError]
       (GitHub.touchedDiff (GitHub.this (snd Mock.errorRun))) = 1
  /\ ~ (fst Mock.errorRun = inr true
        <-> errorCount [Mock.touchFileError]
              (GitHub.touchedDiff (GitHub.this (snd Mock.errorRun))) = 0).
Proof.
  assert (Htrue : fst Mock.errorRun = inr true) by (vm_compute; reflexivity).
  assert (Hcount : errorCount [Mock.touchFileError]
                     (GitHub.touchedDiff (GitHub.this (snd Mock.errorRun))) = 1)
    by (vm_compute; reflexivity).
  split; [vm_compute; repeat constructor|].
  split; [exact Htrue|]. split; [exact Hcount|].
  intros [H _]. specialize (H Htrue). rewrite Hcount in H. discriminate.
Qed.

Lemma report_returns_true_when_calls_succeed_witness :
  GitHub.run Mock.plain Mock.messages [Mock.touchFileError] 0%nat Mock.blank
  = (fst Mock.errorRun, snd Mock.errorRun)
  /\ Forall (fun ev => fulfilled ev = true) (GitHub.trace (snd Mock.errorRun))
  /\ fst Mock.errorRun = inr true.
Proof.
  assert (Hrun : GitHub.run Mock.plain Mock.messages [Mock.touchFileError] 0%nat Mock.blank
                 = (fst Mock.errorRun, snd Mock.errorRun)) by (vm_compute; reflexivity).
  assert (Hall : Forall (fun ev => fulfilled ev = true) (GitHub.trace (snd Mock.errorRun)))
    by (vm_compute; repeat constructor).
  split; [exact Hrun|]. split; [exact Hall|].
  exact (@report_returns_true_when_calls_succeed _ Mock.plain Mock.messages
           [Mock.touchFileError] 0%nat Mock.blank _ _ Hrun Hall).
Defined.

Lemma commit_status_follows_error_count_witness :
  GitHub.run Mock.cleaning Mock.messages Mock.allFindings 0%nat Mock.blank
  = (inr true, snd Mock.fullRun)
  /\ exists status,
       eventsWhere isStatus (GitHub.trace (snd Mock.fullRun))
       = [ok (SetCommitStatus (GitHub.commitId (GitHub.this (snd Mock.fullRun))) status
                (generateCommitDescription Mock.messages
                   (errorCount Mock.allFindings
                      (GitHub.touchedDiff (GitHub.this (snd Mock.fullRun)))))) RDone]
       /\ (status = failure
           <-> 0 < errorCount Mock.allFindings
                     (GitHub.touchedDiff (GitHub.this (snd Mock.fullRun))))
       /\ (status = success
           <-> errorCount Mock.allFindings
                 (GitHub.touchedDiff (GitHub.this (snd Mock.fullRun))) = 0)
       /\ GitHub.nError (GitHub.this (snd Mock.fullRun))
          = errorCount Mock.allFindings
              (GitHub.touchedDiff (GitHub.this (snd Mock.fullRun))).
Proof.
  assert (Hrun : GitHub.run Mock.cleaning Mock.messages Mock.allFindings 0%nat Mock.blank
                 = (inr true, snd Mock.fullRun)) by (vm_compute; reflexivity).
  split; [exact Hrun|].
  exact (@commit_status_follows_error_count _ Mock.cleaning Mock.messages Mock.allFindings
           0%nat Mock.blank _ _ Hrun).
Defined.

Lemma summary_comment_iff_findings_witness :
  GitHub.run Mock.cleaning Mock.messages Mock.allFindings 0%nat Mock.blank
  = (fst Mock.fullRun, snd Mock.fullRun)
  /\ (let d := GitHub.touchedDiff (GitHub.this (snd Mock.fullRun)) in
      let overview :=
        generateOverviewMessage Mock.messages
          (errorCount Mock.allFindings d) (warningCount Mock.allFindings d) in
      let posted := eventsWhere isSummaryPost (GitHub.trace (snd Mock.fullRun)) in
      (posted = []
       \/ (map ev_call posted = [CreateComment overview]
           /\ 0 < errorCount Mock.allFindings d + warningCount Mock.allFindings d))
      /\ ((exists b, fst Mock.fullRun = inr b) ->
          (0 < errorCount Mock.allFindings d + warningCount Mock.allFindings d ->
           posted = [ok (CreateComment overview) RDone])
          /\ (errorCount Mock.allFindings d + warningCount Mock.allFindings d = 0 ->
              posted = []))).
Proof.
  assert (Hrun : GitHub.run Mock.cleaning Mock.messages Mock.allFindings 0%nat Mock.blank
                 = (fst Mock.fullRun, snd Mock.fullRun)) by (vm_compute; reflexivity).
  split; [exact Hrun|].
  exact (@summary_comment_iff_findings _ Mock.cleaning Mock.messages Mock.allFindings
           0%nat Mock.blank _ _ Hrun).
Defined.

Lemma filter_keeps_touched_errors_and_warnings_witness :
  GitHub.touchedFileLog [Mock.mockTouchDiff] Mock.allFindings
  = filter (fun log => FilterUtil.onlySeverity [error; warning] log
                       && FilterUtil.onlyIn [Mock.mockTouchDiff] log) Mock.allFindings
  /\ GitHub.touchedFileLog [] Mock.allFindings = [].
Proof.
  destruct (filter_keeps_touched_errors_and_warnings [Mock.mockTouchDiff] Mock.allFindings)
    as [_ [Hfilter [_ [_ Hempty]]]].
  split; [exact Hfilter | exact Hempty].
Defined.

Example filter_on_mock :
  GitHub.touchedFileLog [Mock.mockTouchDiff]
    (mkLog "src/app.ts" 11 (other "info") "note" :: Mock.allFindings)
  = [Mock.touchFileError; Mock.touchFileWarning].
Proof. vm_compute. reflexivity. Qed.

Lemma stale_comments_deleted_once_witness :
  GitHub.run Mock.cleaning Mock.messages Mock.allFindings 0%nat Mock.blank
  = (fst Mock.fullRun, snd Mock.fullRun)
  /\ eventsWhere isListing (GitHub.trace (snd Mock.fullRun))
     = listingEvents Mock.mockCurrentUserId Mock.mockComments Mock.mockReviews
  /\ NoDup (map comment_id Mock.mockComments)
  /\ NoDup (map review_id Mock.mockReviews)
  /\ callsWhere isDelete (GitHub.trace (snd Mock.fullRun))
     = deleteCalls Mock.mockCurrentUserId Mock.mockComments Mock.mockReviews
  /\ commentDeletions 6544321 (GitHub.trace (snd Mock.fullRun)) = 1%nat
  /\ commentDeletions 3 (GitHub.trace (snd Mock.fullRun)) = 0%nat
  /\ reviewDeletions 8 (GitHub.trace (snd Mock.fullRun)) = 1%nat
  /\ reviewDeletions 7 (GitHub.trace (snd Mock.fullRun)) = 0%nat.
Proof.
  assert (Hrun : GitHub.run Mock.cleaning Mock.messages Mock.allFindings 0%nat Mock.blank
                 = (fst Mock.fullRun, snd Mock.fullRun)) by (vm_compute; reflexivity).
  assert (Hlist : eventsWhere isListing (GitHub.trace (snd Mock.fullRun))
                  = listingEvents Mock.mockCurrentUserId Mock.mockComments Mock.mockReviews)
    by (vm_compute; reflexivity).
  assert (Hc : NoDup (map comment_id Mock.mockComments))
    by (simpl; repeat constructor; simpl; intuition discriminate).
  assert (Hr : NoDup (map review_id Mock.mockReviews))
    by (simpl; repeat constructor; simpl; intuition discriminate).
  destruct (@stale_comments_deleted_once _ Mock.cleaning Mock.messages Mock.allFindings
              0%nat Mock.blank _ _ Hrun) as [_ [_ [_ Hdel]]].
  destruct (Hdel _ _ _ Hlist) as [Hcalls [Hcomments Hreviews]].
  split; [exact Hrun|]. split; [exact Hlist|]. split; [exact Hc|]. split; [exact Hr|].
  split; [exact Hcalls|].
  split; [exact (Hcomments Hc (mkIssueComment 6544321 (Some (mkUser Mock.mockCurrentUserId))
                                 (Some false))
                   (or_intror (or_introl eq_refl)))|].
  split; [exact (Hcomments Hc (mkIssueComment 3 (Some (mkUser 99)) (Some false))
                   (or_intror (or_intror (or_introl eq_refl))))|].
  split; [exact (Hreviews Hr (mkReviewComment 8 (Some (mkUser Mock.mockCurrentUserId)))
                   (or_intror (or_introl eq_refl)))|].
  exact (Hreviews Hr (mkReviewComment 7 (Some (mkUser 99))) (or_introl eq_refl)).
Defined.

Lemma adapter_rejection_propagates_witness :
  GitHub.run Mock.failing Mock.messages Mock.allFindings 0%nat Mock.blank
  = (fst Mock.failedRun, snd Mock.failedRun)
  /\ In (mkEvent (DeleteComment 1) (inl "Bad credentials"))
        (GitHub.trace (snd Mock.failedRun))
  /\ fulfilled (mkEvent (DeleteComment 1) (inl "Bad credentials")) = false
  /\ exists e,
       fst Mock.failedRun = inl e
       /\ rejects e (GitHub.trace (snd Mock.failedRun))
       /\ (exists lg, GitHub.logged (snd Mock.failedRun)
                      = lg ++ [LogError "GitHub report failed" e])
       /\ (forall ev', In ev' (GitHub.trace (snd Mock.failedRun)) ->
                       (stage (ev_call ev')
                        <= stage (ev_call (mkEvent (DeleteComment 1)
                                             (inl "Bad credentials"))))%nat)
       /\ issuedOnce (GitHub.this (snd Mock.failedRun)) (GitHub.trace (snd Mock.failedRun)).
Proof.
  assert (Hrun : GitHub.run Mock.failing Mock.messages Mock.allFindings 0%nat Mock.blank
                 = (fst Mock.failedRun, snd Mock.failedRun)) by (vm_compute; reflexivity).
  assert (Hin : In (mkEvent (DeleteComment 1) (inl "Bad credentials"))
                   (GitHub.trace (snd Mock.failedRun)))
    by (vm_compute; do 5 right; left; reflexivity).
  split; [exact Hrun|]. split; [exact Hin|]. split; [reflexivity|].
  exact (@adapter_rejection_propagates _ Mock.failing Mock.messages Mock.allFindings
           0%nat Mock.blank _ _ _ Hrun Hin eq_refl).
Defined.

Lemma nothing_posted_when_nothing_retained_witness :
  GitHub.run Mock.cleaning Mock.messages Mock.untouchedFindings 0%nat Mock.blank
  = (fst Mock.untouchedRun, snd Mock.untouchedRun)
  /\ GitHub.touchedFileLog (GitHub.touchedDiff (GitHub.this (snd Mock.untouchedRun)))
       Mock.untouchedFindings = []
  /\ (let tr := GitHub.trace (snd Mock.untouchedRun) in
      callsWhere isReviewPost tr = []
      /\ callsWhere isSummaryPost tr = []
      /\ ((exists b, fst Mock.untouchedRun = inr b) ->
          eventsWhere isStatus tr
          = [ok (SetCommitStatus (GitHub.commitId (GitHub.this (snd Mock.untouchedRun)))
                   success (generateCommitDescription Mock.messages 0)) RDone]
          /\ (GitHub.removeOldComment Mock.cleaning = true ->
              exists uid cs rs,
                eventsWhere isListing tr = listingEvents uid cs rs
                /\ callsWhere isDelete tr = deleteCalls uid cs rs)
          /\ (GitHub.removeOldComment Mock.cleaning = false ->
              callsWhere isCleanup tr = []))).
Proof.
  assert (Hrun : GitHub.run Mock.cleaning Mock.messages Mock.untouchedFindings 0%nat Mock.blank
                 = (fst Mock.untouchedRun, snd Mock.untouchedRun))
    by (vm_compute; reflexivity).
  assert (Hnone : GitHub.touchedFileLog
                    (GitHub.touchedDiff (GitHub.this (snd Mock.untouchedRun)))
                    Mock.untouchedFindings = []) by (vm_compute; reflexivity).
  split; [exact Hrun|]. split; [exact Hnone|].
  exact (@nothing_posted_when_nothing_retained _ Mock.cleaning Mock.messages
           Mock.untouchedFindings 0%nat Mock.blank _ _ Hrun Hnone).
Defined.

Lemma phases_run_in_sequence_witness :
  GitHub.run Mock.cleaning Mock.messages Mock.allFindings 0%nat Mock.blank
  = (fst Mock.fullRun, snd Mock.fullRun)
  /\ GitHub.trace (snd Mock.fullRun)
     = firstn 3 (GitHub.trace (snd Mock.fullRun))
       ++ Mock.commentsListed
       :: firstn 4 (skipn 4 (GitHub.trace (snd Mock.fullRun)))
       ++ Mock.firstPost :: skipn 9 (GitHub.trace (snd Mock.fullRun))
  /\ (phase (ev_call Mock.commentsListed) <= phase (ev_call Mock.firstPost))%nat
  /\ ((phase (ev_call Mock.commentsListed) < phase (ev_call Mock.firstPost))%nat ->
      fulfilled Mock.commentsListed = true).
Proof.
  assert (Hrun : GitHub.run Mock.cleaning Mock.messages Mock.allFindings 0%nat Mock.blank
                 = (fst Mock.fullRun, snd Mock.fullRun)) by (vm_compute; reflexivity).
  assert (Htr : GitHub.trace (snd Mock.fullRun)
                = firstn 3 (GitHub.trace (snd Mock.fullRun))
                  ++ Mock.commentsListed
                  :: firstn 4 (skipn 4 (GitHub.trace (snd Mock.fullRun)))
                  ++ Mock.firstPost :: skipn 9 (GitHub.trace (snd Mock.fullRun)))
    by (vm_compute; reflexivity).
  split; [exact Hrun|]. split; [exact Htr|].
  exact (@phases_run_in_sequence _ Mock.cleaning Mock.messages Mock.allFindings
           0%nat Mock.blank _ _ _ _ _ _ _ Hrun Htr).
Defined.

Lemma comments_without_user_are_kept_witness :
  GitHub.run Mock.cleaning Mock.messages Mock.allFindings 0%nat Mock.blank
  = (fst Mock.fullRun, snd Mock.fullRun)
  /\ eventsWhere isListing (GitHub.trace (snd Mock.fullRun))
     = listingEvents Mock.mockCurrentUserId Mock.mockComments Mock.mockReviews
  /\ GitHub.authoredBy Mock.mockCurrentUserId None = false
  /\ commentDeletions 4 (GitHub.trace (snd Mock.fullRun)) = 0%nat
  /\ reviewDeletions 9 (GitHub.trace (snd Mock.fullRun)) = 0%nat.
Proof.
  assert (Hrun : GitHub.run Mock.cleaning Mock.messages Mock.allFindings 0%nat Mock.blank
                 = (fst Mock.fullRun, snd Mock.fullRun)) by (vm_compute; reflexivity).
  assert (Hlist : eventsWhere isListing (GitHub.trace (snd Mock.fullRun))
                  = listingEvents Mock.mockCurrentUserId Mock.mockComments Mock.mockReviews)
    by (vm_compute; reflexivity).
  assert (Hc : NoDup (map comment_id Mock.mockComments))
    by (simpl; repeat constructor; simpl; intuition discriminate).
  assert (Hr : NoDup (map review_id Mock.mockReviews))
    by (simpl; repeat constructor; simpl; intuition discriminate).
  destruct (@comments_without_user_are_kept _ Mock.cleaning Mock.messages Mock.allFindings
              0%nat Mock.blank _ _ _ _ _ Hrun Hlist)
    as [Htest [_ [_ [Hcomments Hreviews]]]].
  split; [exact Hrun|]. split; [exact Hlist|]. split; [exact (Htest Mock.mockCurrentUserId)|].
  split.
  - exact (Hcomments Hc (mkIssueComment 4 None None)
             (or_intror (or_intror (or_intror (or_introl eq_refl)))) eq_refl).
  - exact (Hreviews Hr (mkReviewComment 9 None)
             (or_intror (or_intror (or_introl eq_refl))) eq_refl).
Defined.

Lemma own_comments_deleted_whatever_the_system_flag_witness :
  GitHub.run Mock.cleaning Mock.messages Mock.allFindings 0%nat Mock.blank
  = (fst Mock.fullRun, snd Mock.fullRun)
  /\ eventsWhere isListing (GitHub.trace (snd Mock.fullRun))
     = listingEvents Mock.mockCurrentUserId Mock.mockComments Mock.mockReviews
  /\ In (mkIssueComment 1 (Some (mkUser Mock.mockCurrentUserId)) (Some true))
        Mock.mockComments
  /\ In (DeleteComment 1) (callsWhere isDelete (GitHub.trace (snd Mock.fullRun)))
  /\ commentDeletions 1 (GitHub.trace (snd Mock.fullRun)) = 1%nat.
Proof.
  assert (Hrun : GitHub.run Mock.cleaning Mock.messages Mock.allFindings 0%nat Mock.blank
                 = (fst Mock.fullRun, snd Mock.fullRun)) by (vm_compute; reflexivity).
  assert (Hlist : eventsWhere isListing (GitHub.trace (snd Mock.fullRun))
                  = listingEvents Mock.mockCurrentUserId Mock.mockComments Mock.mockReviews)
    by (vm_compute; reflexivity).
  assert (Hc : NoDup (map comment_id Mock.mockComments))
    by (simpl; repeat constructor; simpl; intuition discriminate).
  assert (Hin : In (mkIssueComment 1 (Some (mkUser Mock.mockCurrentUserId)) (Some true))
                   Mock.mockComments) by (left; reflexivity).
  destruct (@own_comments_deleted_whatever_the_system_flag _ Mock.cleaning Mock.messages
              Mock.allFindings 0%nat Mock.blank _ _ _ _ _ Hrun Hlist)
    as [_ [_ [Hflag [_ Hcount]]]].
  split; [exact Hrun|]. split; [exact Hlist|]. split; [exact Hin|].
  split; [exact (Hflag 1 (Some true) Hin)|].
  exact (Hcount Hc _ (mkUser Mock.mockCurrentUserId) Hin eq_refl eq_refl).
Defined.

(** The further properties on the runs of the mock. *)

Lemma inline_comments_follow_comments_witness :
  GitHub.run Mock.cleaning Mock.messages Mock.allFindings 0%nat Mock.blank
  = (inr true, snd Mock.fullRun)
  /\ hd_error (GitHub.trace (snd Mock.fullRun))
     = Some (ok GetLatestCommitSha (RSha (GitHub.commitId (GitHub.this (snd Mock.fullRun)))))
  /\ eventsWhere isReviewPost (GitHub.trace (snd Mock.fullRun))
     = map (fun c => ok (CreateReviewComment
                           (GitHub.commitId (GitHub.this (snd Mock.fullRun)))
                           (text c) (file c) (cline c)) RDone)
           (GitHub.comments (GitHub.this (snd Mock.fullRun))).
Proof.
  assert (Hrun : GitHub.run Mock.cleaning Mock.messages Mock.allFindings 0%nat Mock.blank
                 = (inr true, snd Mock.fullRun)) by (vm_compute; reflexivity).
  split; [exact Hrun|].
  exact (@inline_comments_follow_comments _ Mock.cleaning Mock.messages Mock.allFindings
           0%nat Mock.blank _ _ Hrun).
Defined.

Lemma report_ignores_previous_fields_witness :
  fst (GitHub.run Mock.cleaning Mock.messages Mock.allFindings 0%nat Mock.blank)
  = fst (GitHub.run Mock.cleaning Mock.messages Mock.allFindings 0%nat Mock.stale)
  /\ GitHub.trace (snd (GitHub.run Mock.cleaning Mock.messages Mock.allFindings
                          0%nat Mock.blank))
     = GitHub.trace (snd (GitHub.run Mock.cleaning Mock.messages Mock.allFindings
                            0%nat Mock.stale)).
Proof.
  destruct (@report_ignores_previous_fields _ Mock.cleaning Mock.messages Mock.allFindings
              0%nat Mock.blank Mock.stale) as [Hres [_ [Htrace _]]].
  split; [exact Hres | exact Htrace].
Defined.

Lemma setup_failure_stops_the_run_witness :
  GitHub.run (Mock.github Mock.rejectSha (Some true)) Mock.messages Mock.allFindings
    0%nat Mock.stale
  = (fst Mock.shaFailedRun, snd Mock.shaFailedRun)
  /\ In (mkEvent GetLatestCommitSha (inl "Not Found")) (GitHub.trace (snd Mock.shaFailedRun))
  /\ fst Mock.shaFailedRun = inl "Not Found"
  /\ GitHub.trace (snd Mock.shaFailedRun) = [mkEvent GetLatestCommitSha (inl "Not Found")]
  /\ GitHub.this (snd Mock.shaFailedRun) = Mock.stale.
Proof.
  assert (Hrun : GitHub.run (Mock.github Mock.rejectSha (Some true)) Mock.messages
                   Mock.allFindings 0%nat Mock.stale
                 = (fst Mock.shaFailedRun, snd Mock.shaFailedRun))
    by (vm_compute; reflexivity).
  assert (Hin : In (mkEvent GetLatestCommitSha (inl "Not Found"))
                   (GitHub.trace (snd Mock.shaFailedRun)))
    by (vm_compute; left; reflexivity).
  split; [exact Hrun|]. split; [exact Hin|].
  exact (proj1 (@setup_failure_stops_the_run _ (Mock.github Mock.rejectSha (Some true))
                  Mock.messages Mock.allFindings 0%nat Mock.stale _ _ "Not Found" Hrun)
           Hin).
Defined.

Lemma fields_after_setup_witness :
  GitHub.run Mock.failing Mock.messages Mock.allFindings 0%nat Mock.blank
  = (fst Mock.failedRun, snd Mock.failedRun)
  /\ In (ok GetDiff (RDiff [Mock.mockTouchDiff])) (GitHub.trace (snd Mock.failedRun))
  /\ hd_error (GitHub.trace (snd Mock.failedRun))
     = Some (ok GetLatestCommitSha
               (RSha (GitHub.commitId (GitHub.this (snd Mock.failedRun)))))
  /\ GitHub.touchedDiff (GitHub.this (snd Mock.failedRun)) = [Mock.mockTouchDiff]
  /\ GitHub.comments (GitHub.this (snd Mock.failedRun))
     = CommentUtil.groupComments Mock.messages
         (filter (FilterUtil.onlyIn [Mock.mockTouchDiff])
            (filter (FilterUtil.onlySeverity [error; warning]) Mock.allFindings))
  /\ GitHub.nError (GitHub.this (snd Mock.failedRun))
     = GitHub.sumOf errors (GitHub.comments (GitHub.this (snd Mock.failedRun)))
  /\ GitHub.nWarning (GitHub.this (snd Mock.failedRun))
     = GitHub.sumOf warnings (GitHub.comments (GitHub.this (snd Mock.failedRun))).
Proof.
  assert (Hrun : GitHub.run Mock.failing Mock.messages Mock.allFindings 0%nat Mock.blank
                 = (fst Mock.failedRun, snd Mock.failedRun)) by (vm_compute; reflexivity).
  assert (Hin : In (ok GetDiff (RDiff [Mock.mockTouchDiff]))
                   (GitHub.trace (snd Mock.failedRun)))
    by (vm_compute; right; left; reflexivity).
  split; [exact Hrun|]. split; [exact Hin|].
  exact (@fields_after_setup _ Mock.failing Mock.messages Mock.allFindings 0%nat Mock.blank
           _ _ _ Hrun Hin).
Defined.

Lemma batches_are_issued_whole_witness :
  GitHub.run Mock.failing Mock.messages Mock.allFindings 0%nat Mock.blank
  = (fst Mock.failedRun, snd Mock.failedRun)
  /\ In (mkEvent (DeleteComment 1) (inl "Bad credentials"))
        (GitHub.trace (snd Mock.failedRun))
  /\ exists uid cs rs,
       eventsWhere isListing (GitHub.trace (snd Mock.failedRun)) = listingEvents uid cs rs
       /\ callsWhere isDelete (GitHub.trace (snd Mock.failedRun))
          = map (fun c => DeleteComment (comment_id c))
              (filter (fun c => GitHub.authoredBy uid (comment_user c)) cs)
            ++ map (fun x => DeleteReviewComment (review_id x))
                 (filter (fun x => GitHub.authoredBy uid (review_user x)) rs).
Proof.
  assert (Hrun : GitHub.run Mock.failing Mock.messages Mock.allFindings 0%nat Mock.blank
                 = (fst Mock.failedRun, snd Mock.failedRun)) by (vm_compute; reflexivity).
  assert (Hin : In (mkEvent (DeleteComment 1) (inl "Bad credentials"))
                   (GitHub.trace (snd Mock.failedRun)))
    by (vm_compute; do 5 right; left; reflexivity).
  split; [exact Hrun|]. split; [exact Hin|].
  exact (proj1 (proj2 (@batches_are_issued_whole _ Mock.failing Mock.messages
                         Mock.allFindings 0%nat Mock.blank _ _ _ Hrun Hin))
           eq_refl).
Defined.

Lemma completed_run_call_count_witness :
  GitHub.run Mock.cleaning Mock.messages Mock.allFindings 0%nat Mock.blank
  = (inr true, snd Mock.fullRun)
  /\ GitHub.removeOldComment Mock.cleaning = true
  /\ eventsWhere isListing (GitHub.trace (snd Mock.fullRun))
     = listingEvents Mock.mockCurrentUserId Mock.mockComments Mock.mockReviews
  /\ length (GitHub.trace (snd Mock.fullRun))
     = (6 + length (filter (fun c => GitHub.authoredBy Mock.mockCurrentUserId
                                       (comment_user c)) Mock.mockComments)
        + length (filter (fun x => GitHub.authoredBy Mock.mockCurrentUserId
                                     (review_user x)) Mock.mockReviews)
        + (length (GitHub.comments (GitHub.this (snd Mock.fullRun)))
           + (if (0 <? GitHub.nWarning (GitHub.this (snd Mock.fullRun))
                       + GitHub.nError (GitHub.this (snd Mock.fullRun)))%Z
              then 1 else 0)))%nat.
Proof.
  assert (Hrun : GitHub.run Mock.cleaning Mock.messages Mock.allFindings 0%nat Mock.blank
                 = (inr true, snd Mock.fullRun)) by (vm_compute; reflexivity).
  assert (Hlist : eventsWhere isListing (GitHub.trace (snd Mock.fullRun))
                  = listingEvents Mock.mockCurrentUserId Mock.mockComments Mock.mockReviews)
    by (vm_compute; reflexivity).
  split; [exact Hrun|]. split; [reflexivity|]. split; [exact Hlist|].
  exact (proj2 (@completed_run_call_count _ Mock.cleaning Mock.messages Mock.allFindings
                  0%nat Mock.blank _ _ Hrun)
           eq_refl _ _ _ Hlist).
Defined.

Example fullRun_call_count : length (GitHub.trace (snd Mock.fullRun)) = 12%nat.
Proof. vm_compute. reflexivity. Qed.

Lemma status_failure_undoes_nothing_witness :
  GitHub.run (Mock.github Mock.rejectStatus None) Mock.messages Mock.allFindings
    0%nat Mock.stale
  = (fst Mock.statusFailedRun, snd Mock.statusFailedRun)
  /\ In (mkEvent (SetCommitStatus "cafe01" failure "errors found")
           (inl "Validation Failed"))
        (GitHub.trace (snd Mock.statusFailedRun))
  /\ fst Mock.statusFailedRun = inl "Validation Failed"
  /\ eventsWhere isReviewPost (GitHub.trace (snd Mock.statusFailedRun))
     = map (fun k => ok (CreateReviewComment
                           (GitHub.commitId (GitHub.this (snd Mock.statusFailedRun)))
                           (text k) (file k) (cline k)) RDone)
           (GitHub.comments (GitHub.this (snd Mock.statusFailedRun))).
Proof.
  assert (Hrun : GitHub.run (Mock.github Mock.rejectStatus None) Mock.messages
                   Mock.allFindings 0%nat Mock.stale
                 = (fst Mock.statusFailedRun, snd Mock.statusFailedRun))
    by (vm_compute; reflexivity).
  assert (Hin : In (mkEvent (SetCommitStatus "cafe01" failure "errors found")
                      (inl "Validation Failed"))
                   (GitHub.trace (snd Mock.statusFailedRun)))
    by (vm_compute; do 5 right; left; reflexivity).
  destruct (@status_failure_undoes_nothing _ (Mock.github Mock.rejectStatus None)
              Mock.messages Mock.allFindings 0%nat Mock.stale _ _ _ _ Hrun Hin eq_refl)
    as [Hres [_ [_ [_ [Hposts _]]]]].
  split; [exact Hrun|]. split; [exact Hin|]. split; [exact Hres | exact Hposts].
Defined.
